(** * documentalist: the typescript plugin's reflection visitor

    A shallow embedding of [src/plugins/typescript/visitor.ts]: the [Visitor]
    class that maps typedoc's reflection graph to documentalist's
    [ITsInterface]/[ITsClass] entries, and the module-level helpers
    [getCommentTag], [getDefaultValue], [getFileName], [getFlags] and
    [getIsDeprecated].

    - JavaScript strings are sequences of UTF-16 code units ([jsstring]).
    - [undefined] is [None]; a property that typedoc's declarations type as
      always present is a plain field.
    - A [TypeError] raised by reading a property of [undefined] is the
      [Throw] case of [result]; functions that have no such read are pure.
    - The visitor is given twice: as functions of the visitor's two fields
      and the working directory, and, in [Effects], as steps over a world
      that holds those fields, the working directory and the compiler's own
      state.  The steps return what the functions return. *)

From Stdlib Require Import List PeanoNat NArith Bool String Ascii Lia.
Import ListNotations.

Set Implicit Arguments.

(** ** JavaScript strings *)

Definition jsstring := list N.

(** A string literal of the source, one code unit per character. *)
Definition str (s : string) : jsstring :=
  map N_of_ascii (list_ascii_of_string s).

Definition LF : N := 10%N.

Fixpoint jsstring_eqb (a b : jsstring) : bool :=
  match a, b with
  | [], [] => true
  | x :: a', y :: b' => N.eqb x y && jsstring_eqb a' b'
  | _, _ => false
  end.

(** ECMAScript's WhiteSpace and LineTerminator code units, the ones
    [String.prototype.trim] strips. *)
Definition isWhiteSpace (c : N) : bool :=
  ((9 <=? c) && (c <=? 13) || (c =? 32) || (c =? 160) || (c =? 5760)
   || (8192 <=? c) && (c <=? 8202) || (c =? 8232) || (c =? 8233)
   || (c =? 8239) || (c =? 8287) || (c =? 12288) || (c =? 65279))%N.

Fixpoint trimStart (s : jsstring) : jsstring :=
  match s with
  | c :: s' => if isWhiteSpace c then trimStart s' else s
  | [] => []
  end.

Definition trimEnd (s : jsstring) : jsstring := rev (trimStart (rev s)).

(** [String.prototype.trim]. *)
Definition trim (s : jsstring) : jsstring := trimEnd (trimStart s).

(** [Array.prototype.join] on strings. *)
Fixpoint join (sep : jsstring) (l : list jsstring) : jsstring :=
  match l with
  | [] => []
  | [x] => x
  | x :: l' => x ++ sep ++ join sep l'
  end.

(** [Array.prototype.find]. *)
Fixpoint find_first {A} (p : A -> bool) (l : list A) : option A :=
  match l with
  | [] => None
  | x :: l' => if p x then Some x else find_first p l'
  end.

(** ** Errors *)

(** What a read of [undefined.prop] raises. *)
Inductive TypeError : Type :=
| CannotReadProperty (prop : string).

Inductive result (A : Type) : Type :=
| Ok (a : A)
| Throw (e : TypeError).
Arguments Ok {A} a.
Arguments Throw {A} e.

Definition bind {A B} (r : result A) (k : A -> result B) : result B :=
  match r with
  | Ok a => k a
  | Throw e => Throw e
  end.

Notation "x <- c ;; k" := (bind c (fun x => k))
  (at level 61, c at next level, right associativity).

(** [Array.prototype.map] with a callback that may throw: the callback runs
    on the elements in order and the first exception ends the loop. *)
Fixpoint mapM {A B} (f : A -> result B) (l : list A) : result (list B) :=
  match l with
  | [] => Ok []
  | x :: l' => y <- f x ;; ys <- mapM f l' ;; Ok (y :: ys)
  end.

(** [Array.prototype.filter] with a predicate that may throw. *)
Fixpoint filterM {A} (p : A -> result bool) (l : list A) : result (list A) :=
  match l with
  | [] => Ok []
  | x :: l' =>
      b <- p x ;; xs <- filterM p l' ;; Ok (if b then x :: xs else xs)
  end.

(** ** typedoc's reflection model (input) *)

(** typedoc's kinds are distinct bit flags and a reflection has one of them,
    so [kindOf] on a single kind is an equality test. *)
Module ReflectionKind.
Inductive t : Type :=
| Global | ExternalModule | Module_ | Enum | EnumMember | Variable_
| Function | Class | Interface | Constructor | Property | Method
| CallSignature | IndexSignature | ConstructorSignature | Parameter_
| TypeLiteral | TypeParameter | Accessor | GetSignature | SetSignature
| ObjectLiteral | TypeAlias | Event.

Definition eqb (a b : t) : bool :=
  match a, b with
  | Global, Global | ExternalModule, ExternalModule | Module_, Module_
  | Enum, Enum | EnumMember, EnumMember | Variable_, Variable_
  | Function, Function | Class, Class | Interface, Interface
  | Constructor, Constructor | Property, Property | Method, Method
  | CallSignature, CallSignature | IndexSignature, IndexSignature
  | ConstructorSignature, ConstructorSignature | Parameter_, Parameter_
  | TypeLiteral, TypeLiteral | TypeParameter, TypeParameter
  | Accessor, Accessor | GetSignature, GetSignature
  | SetSignature, SetSignature | ObjectLiteral, ObjectLiteral
  | TypeAlias, TypeAlias | Event, Event => true
  | _, _ => false
  end.
End ReflectionKind.

Module ReflectionFlags.
Record t : Type := {
  isExported : option bool;
  isExternal : option bool;
  isOptional : option bool;
  isPrivate : option bool;
  isProtected : option bool;
  isPublic : option bool;
  isRest : option bool;
  isStatic : option bool;
}.
End ReflectionFlags.

Module CommentTag.
Record t : Type := { tagName : jsstring; text : jsstring }.
End CommentTag.

Module Comment.
Record t : Type := {
  shortText : option jsstring;
  text : option jsstring;
  tags : option (list CommentTag.t);
}.
End Comment.

Module SourceFile.
Record t : Type := { fullFileName : jsstring }.
End SourceFile.

Module SourceReference.
Record t : Type := { file : option SourceFile.t }.
End SourceReference.

(** The fields of the base class [Reflection] that the visitor reads. *)
Module Reflection.
Record t : Type := {
  name : jsstring;
  kind : ReflectionKind.t;
  flags : option ReflectionFlags.t;
  comment : option Comment.t;
  sources : option (list SourceReference.t);
}.
End Reflection.

Module ParameterReflection.
Record t {TypeRef : Type} : Type := {
  base : Reflection.t;
  type : option TypeRef;
  defaultValue : option jsstring;
}.
Arguments t : clear implicits.
End ParameterReflection.

Module SignatureReflection.
Record t {TypeRef : Type} : Type := {
  base : Reflection.t;
  parameters : option (list (ParameterReflection.t TypeRef));
  type : option TypeRef;
}.
Arguments t : clear implicits.
End SignatureReflection.

Module DeclarationReflection.
Record t {TypeRef : Type} : Type := {
  base : Reflection.t;
  signatures : option (list (SignatureReflection.t TypeRef));
  type : option TypeRef;
  defaultValue : option jsstring;
}.
Arguments t : clear implicits.
End DeclarationReflection.

Module ContainerReflection.
Record t {TypeRef : Type} : Type := {
  base : Reflection.t;
  children : option (list (DeclarationReflection.t TypeRef));
}.
Arguments t : clear implicits.

(** typedoc: [(this.children || []).filter(child => child.kindOf(kind))]. *)
Definition getChildrenByKind {TypeRef} (def : t TypeRef)
    (kind : ReflectionKind.t) : list (DeclarationReflection.t TypeRef) :=
  filter
    (fun child =>
       ReflectionKind.eqb
         (Reflection.kind (DeclarationReflection.base child)) kind)
    (match children def with Some cs => cs | None => [] end).
End ContainerReflection.

Module ProjectReflection.
(** [reflections] is the project's registry, in the order the converter
    discovered the declarations. *)
Record t {TypeRef : Type} : Type := {
  reflections : list (ContainerReflection.t TypeRef);
}.
Arguments t : clear implicits.

(** typedoc: the registered reflections [r] with [r.kindOf(kind)]. *)
Definition getReflectionsByKind {TypeRef} (project : t TypeRef)
    (kind : ReflectionKind.t) : list (ContainerReflection.t TypeRef) :=
  filter
    (fun r =>
       ReflectionKind.eqb
         (Reflection.kind (ContainerReflection.base r)) kind)
    (reflections project).
End ProjectReflection.

(** The subclasses of [Reflection] are used where a [Reflection] is
    expected; [DefaultValueContainer] is typedoc's interface of the
    reflections that carry a [defaultValue]. *)
Class Reflects (R : Type) : Type := asReflection : R -> Reflection.t.

Class DefaultValueContainer (R : Type) : Type := {
  DefaultValueContainer_Reflects :: Reflects R;
  explicitDefaultValue : R -> option jsstring;
}.

#[global] Instance Reflection_Reflects : Reflects Reflection.t :=
  fun r => r.
#[global] Instance ParameterReflection_Reflects {TypeRef} :
  Reflects (ParameterReflection.t TypeRef) := @ParameterReflection.base _.
#[global] Instance SignatureReflection_Reflects {TypeRef} :
  Reflects (SignatureReflection.t TypeRef) := @SignatureReflection.base _.
#[global] Instance DeclarationReflection_Reflects {TypeRef} :
  Reflects (DeclarationReflection.t TypeRef) := @DeclarationReflection.base _.
#[global] Instance ContainerReflection_Reflects {TypeRef} :
  Reflects (ContainerReflection.t TypeRef) := @ContainerReflection.base _.

#[global] Instance ParameterReflection_DefaultValueContainer {TypeRef} :
  DefaultValueContainer (ParameterReflection.t TypeRef) :=
  {| explicitDefaultValue := @ParameterReflection.defaultValue _ |}.
#[global] Instance DeclarationReflection_DefaultValueContainer {TypeRef} :
  DefaultValueContainer (DeclarationReflection.t TypeRef) :=
  {| explicitDefaultValue := @DeclarationReflection.defaultValue _ |}.

(** ** documentalist's client model (output) *)

Module Kind.
Inductive t : Type :=
| Class | Interface | Method | Parameter_ | Signature | Property.
End Kind.

(** A value of type [boolean | string]. *)
Inductive BoolOrString : Type :=
| JsBool (b : bool)
| JsString (s : jsstring).

Module ITsFlags.
Record t : Type := {
  isDeprecated : option BoolOrString;
  isExported : option bool;
  isExternal : option bool;
  isOptional : option bool;
  isPrivate : option bool;
  isProtected : option bool;
  isPublic : option bool;
  isRest : option bool;
  isStatic : option bool;
}.
End ITsFlags.

(** The five properties every entry has; an entry's object literal spreads
    them ([...this.makeDocEntry(def, kind)]) before its own. *)
Module ITsDocBase.
Record t {Block : Type} : Type := {
  documentation : option Block;
  fileName : option jsstring;
  flags : option ITsFlags.t;
  kind : Kind.t;
  name : jsstring;
}.
Arguments t : clear implicits.

(** [{ ...entry, kind: k }] *)
Definition withKind {Block} (entry : t Block) (k : Kind.t) : t Block :=
  {| documentation := documentation entry;
     fileName := fileName entry;
     flags := flags entry;
     kind := k;
     name := name entry |}.
End ITsDocBase.

Module ITsMethodParameter.
Record t {Block : Type} : Type := {
  base : ITsDocBase.t Block;
  defaultValue : option jsstring;
  type : jsstring;
}.
Arguments t : clear implicits.
End ITsMethodParameter.

Module ITsMethodSignature.
Record t {Block : Type} : Type := {
  base : ITsDocBase.t Block;
  parameters : list (ITsMethodParameter.t Block);
  returnType : jsstring;
  type : jsstring;
}.
Arguments t : clear implicits.
End ITsMethodSignature.

Module ITsMethod.
Record t {Block : Type} : Type := {
  base : ITsDocBase.t Block;
  signatures : list (ITsMethodSignature.t Block);
}.
Arguments t : clear implicits.
End ITsMethod.

Module ITsProperty.
Record t {Block : Type} : Type := {
  base : ITsDocBase.t Block;
  defaultValue : option jsstring;
  type : jsstring;
}.
Arguments t : clear implicits.
End ITsProperty.

(** [ITsInterface]; [ITsClass] has the same shape and the kind [Class]. *)
Module ITsInterface.
Record t {Block : Type} : Type := {
  base : ITsDocBase.t Block;
  methods : list (ITsMethod.t Block);
  properties : list (ITsProperty.t Block);
}.
Arguments t : clear implicits.
End ITsInterface.

Definition ITsClass := ITsInterface.t.

(** ** The module-level helpers *)

(** [v === true] *)
Definition isTrue (v : option bool) : bool :=
  match v with
  | Some true => true
  | _ => false
  end.

Definition getCommentTag (comment : option Comment.t) (tagName : jsstring)
    : option CommentTag.t :=
  match comment with
  | None => None
  | Some comment =>
      match Comment.tags comment with
      | None => None
      | Some tags =>
          find_first
            (fun tag => jsstring_eqb (CommentTag.tagName tag) tagName) tags
      end
  end.

Definition getDefaultValue {R} `{DefaultValueContainer R} (ref : R)
    : option jsstring :=
  match explicitDefaultValue ref with
  | Some v => Some v
  | None =>
      let defaultValue :=
        getCommentTag (Reflection.comment (asReflection ref)) (str "default") in
      match defaultValue with
      | Some defaultValue => Some (trim (CommentTag.text defaultValue))
      | None => None
      end
  end.

Definition getIsDeprecated (ref : Reflection.t) : option BoolOrString :=
  let deprecatedTag :=
    getCommentTag (Reflection.comment ref) (str "deprecated") in
  match deprecatedTag with
  | None => None
  | Some deprecatedTag =>
      let text := trim (CommentTag.text deprecatedTag) in
      Some (if jsstring_eqb text [] then JsBool true else JsString text)
  end.

Definition getFlags (ref : Reflection.t) : option ITsFlags.t :=
  match Reflection.flags ref with
  | None => None
  | Some flags =>
      let isDeprecated := getIsDeprecated ref in
      Some {| ITsFlags.isDeprecated := isDeprecated;
              ITsFlags.isExported := ReflectionFlags.isExported flags;
              ITsFlags.isExternal := ReflectionFlags.isExternal flags;
              ITsFlags.isOptional := ReflectionFlags.isOptional flags;
              ITsFlags.isPrivate := ReflectionFlags.isPrivate flags;
              ITsFlags.isProtected := ReflectionFlags.isProtected flags;
              ITsFlags.isPublic := ReflectionFlags.isPublic flags;
              ITsFlags.isRest := ReflectionFlags.isRest flags;
              ITsFlags.isStatic := ReflectionFlags.isStatic flags |}
  end.

(** ** The visitor's state *)

(** The one member of [ICompiler] the visitor calls, and the one option it
    reads. *)
Record ICompiler {Block : Type} : Type := { renderBlock : jsstring -> Block }.
Arguments ICompiler : clear implicits.

Record ITypescriptPluginOptions : Type := {
  includeNonExported : option bool;
}.

(** [constructor(private compiler, private options)] *)
Record Visitor {Block : Type} : Type := {
  compiler : ICompiler Block;
  options : ITypescriptPluginOptions;
}.
Arguments Visitor : clear implicits.

(** ** The visitor's reads and calls, step by step

    The methods once more, with what they read and call made explicit: the
    two fields of the [Visitor] object, the working directory of the
    process, and the compiler's own state, which a call of [renderBlock] may
    read and change.  A method is a step from a world to a result and a
    world; an exception keeps the world reached when it is raised. *)
Module Effects.

Record World {Block State : Type} : Type := {
  this_options : ITypescriptPluginOptions;
  this_compiler : State -> jsstring -> Block * State;
  compilerState : State;
  process_cwd : jsstring;
}.
Arguments World : clear implicits.

(** The visitor a world holds, with the renderer read at the compiler's
    current state. *)
Definition pureVisitor {Block State} (world : World Block State)
    : Visitor Block :=
  {| compiler :=
       {| renderBlock :=
            fun text => fst (this_compiler world (compilerState world) text) |};
     options := this_options world |}.

Definition M (Block State A : Type) : Type :=
  World Block State -> result A * World Block State.

Definition ret {Block State A} (a : A) : M Block State A :=
  fun world => (Ok a, world).

Definition throw {Block State A} (e : TypeError) : M Block State A :=
  fun world => (Throw e, world).

Definition andThen {Block State A B} (m : M Block State A)
    (k : A -> M Block State B) : M Block State B :=
  fun world =>
    match m world with
    | (Ok a, world') => k a world'
    | (Throw e, world') => (Throw e, world')
    end.

Notation "x <~ c ;; k" := (andThen c (fun x => k))
  (at level 61, c at next level, right associativity).

(** [this.options] *)
Definition readOptions {Block State} : M Block State ITypescriptPluginOptions :=
  fun world => (Ok (this_options world), world).

(** [process.cwd()] *)
Definition cwd {Block State} : M Block State jsstring :=
  fun world => (Ok (process_cwd world), world).

(** [this.compiler.renderBlock(text)] *)
Definition renderBlock {Block State} (text : jsstring) : M Block State Block :=
  fun world =>
    let (block, state) := this_compiler world (compilerState world) text in
    (Ok block,
     {| this_options := this_options world;
        this_compiler := this_compiler world;
        compilerState := state;
        process_cwd := process_cwd world |}).

Fixpoint mapM {Block State A B} (f : A -> M Block State B) (l : list A)
    : M Block State (list B) :=
  match l with
  | [] => ret []
  | x :: l' => y <~ f x ;; ys <~ mapM f l' ;; ret (y :: ys)
  end.

Fixpoint filterM {Block State A} (p : A -> M Block State bool) (l : list A)
    : M Block State (list A) :=
  match l with
  | [] => ret []
  | x :: l' =>
      b <~ p x ;; xs <~ filterM p l' ;; ret (if b then x :: xs else xs)
  end.

(** What a call of [renderBlock] returns does not depend on the compiler's
    state. *)
Definition rendererIgnoresState {Block State} (world : World Block State)
    : Prop :=
  forall state state' text,
    fst (this_compiler world state text)
    = fst (this_compiler world state' text).

(** The second world differs from the first in the compiler's state at
    most. *)
Definition sameButCompilerState {Block State} (world world' : World Block State)
    : Prop :=
  this_options world' = this_options world
  /\ this_compiler world' = this_compiler world
  /\ process_cwd world' = process_cwd world.

(** From every world that differs from [origin] in the compiler's state at
    most, the step gives [r] and reaches such a world again. *)
Definition yields {Block State A} (origin : World Block State)
    (m : M Block State A) (r : result A) : Prop :=
  forall world,
    sameButCompilerState origin world ->
    exists world', m world = (r, world') /\ sameButCompilerState origin world'.

Section Steps.
Variables TypeRef Block State : Type.
Variable relative : jsstring -> jsstring -> jsstring.
Variable resolveTypeString : option TypeRef -> jsstring.
Variable resolveSignature : SignatureReflection.t TypeRef -> jsstring.

Definition filterReflection (def : Reflection.t) : M Block State bool :=
  match Reflection.flags def with
  | None => throw (CannotReadProperty "isExported")
  | Some flags =>
      if isTrue (ReflectionFlags.isExported flags) then ret true
      else options <~ readOptions ;; ret (isTrue (includeNonExported options))
  end.

Definition renderComment (comment : option Comment.t)
    : M Block State (option Block) :=
  match comment with
  | None => ret None
  | Some comment =>
      let documentation := [] in
      let documentation :=
        match Comment.shortText comment with
        | Some ((_ :: _) as shortText) => documentation ++ shortText
        | _ => documentation
        end in
      let documentation :=
        match Comment.text comment with
        | Some ((_ :: _) as text) => documentation ++ [LF; LF] ++ text
        | _ => documentation
        end in
      let documentation :=
        match Comment.tags comment with
        | Some tags =>
            documentation ++ [LF; LF] ++
            join [LF]
              (map
                 (fun tag =>
                    str "@" ++ CommentTag.tagName tag ++ str " "
                    ++ CommentTag.text tag)
                 (filter
                    (fun tag =>
                       negb (jsstring_eqb (CommentTag.tagName tag)
                               (str "default"))
                       && negb (jsstring_eqb (CommentTag.tagName tag)
                                  (str "deprecated")))
                    tags))
        | None => documentation
        end in
      block <~ renderBlock documentation ;; ret (Some block)
  end.

Definition getFileName (ref : Reflection.t) : M Block State (option jsstring) :=
  let sources :=
    match Reflection.sources ref with Some s => s | None => [] end in
  let source := nth_error sources 0 in
  let fileName :=
    match source with
    | None => None
    | Some source =>
        match SourceReference.file source with
        | None => None
        | Some file => Some (SourceFile.fullFileName file)
        end
    end in
  match fileName with
  | None => ret None
  | Some [] => ret (Some [])
  | Some fileName =>
      directory <~ cwd ;; ret (Some (relative directory fileName))
  end.

Definition makeDocEntry (def : Reflection.t) (kind : Kind.t)
    : M Block State (ITsDocBase.t Block) :=
  documentation <~ renderComment (Reflection.comment def) ;;
  fileName <~ getFileName def ;;
  ret {| ITsDocBase.documentation := documentation;
         ITsDocBase.fileName := fileName;
         ITsDocBase.flags := getFlags def;
         ITsDocBase.kind := kind;
         ITsDocBase.name := Reflection.name def |}.

Definition visitChildren {R T} `{Reflects R} (children : list R)
    (visitor : R -> M Block State T) : M Block State (list T) :=
  passed <~ filterM (fun def => filterReflection (asReflection def)) children ;;
  mapM visitor passed.

Definition visitParameter (param : ParameterReflection.t TypeRef)
    : M Block State (ITsMethodParameter.t Block) :=
  entry <~ makeDocEntry (asReflection param) Kind.Parameter_ ;;
  ret {| ITsMethodParameter.base := entry;
         ITsMethodParameter.defaultValue := getDefaultValue param;
         ITsMethodParameter.type :=
           resolveTypeString (ParameterReflection.type param) |}.

Definition visitSignature (sig : SignatureReflection.t TypeRef)
    : M Block State (ITsMethodSignature.t Block) :=
  entry <~ makeDocEntry (asReflection sig) Kind.Signature ;;
  parameters <~
    mapM (fun param => visitParameter param)
      (match SignatureReflection.parameters sig with
       | Some parameters => parameters
       | None => []
       end) ;;
  ret {| ITsMethodSignature.base := entry;
         ITsMethodSignature.parameters := parameters;
         ITsMethodSignature.returnType :=
           resolveTypeString (SignatureReflection.type sig);
         ITsMethodSignature.type := resolveSignature sig |}.

Definition visitMethod (def : DeclarationReflection.t TypeRef)
    : M Block State (ITsMethod.t Block) :=
  entry <~ makeDocEntry (asReflection def) Kind.Method ;;
  match DeclarationReflection.signatures def with
  | None => throw (CannotReadProperty "map")
  | Some signatures =>
      signatures <~ mapM (fun sig => visitSignature sig) signatures ;;
      ret {| ITsMethod.base := entry; ITsMethod.signatures := signatures |}
  end.

Definition visitProperty (def : DeclarationReflection.t TypeRef)
    : M Block State (ITsProperty.t Block) :=
  entry <~ makeDocEntry (asReflection def) Kind.Property ;;
  ret {| ITsProperty.base := entry;
         ITsProperty.defaultValue := getDefaultValue def;
         ITsProperty.type :=
           resolveTypeString (DeclarationReflection.type def) |}.

Definition visitInterface (def : ContainerReflection.t TypeRef)
    : M Block State (ITsInterface.t Block) :=
  entry <~ makeDocEntry (asReflection def) Kind.Interface ;;
  methods <~
    visitChildren
      (ContainerReflection.getChildrenByKind def ReflectionKind.Method)
      visitMethod ;;
  properties <~
    visitChildren
      (ContainerReflection.getChildrenByKind def ReflectionKind.Property)
      visitProperty ;;
  ret {| ITsInterface.base := entry;
         ITsInterface.methods := methods;
         ITsInterface.properties := properties |}.

Definition visitClass (def : ContainerReflection.t TypeRef)
    : M Block State (ITsClass Block) :=
  entry <~ visitInterface def ;;
  ret {| ITsInterface.base :=
           ITsDocBase.withKind (ITsInterface.base entry) Kind.Class;
         ITsInterface.methods := ITsInterface.methods entry;
         ITsInterface.properties := ITsInterface.properties entry |}.

Definition visitProject (project : ProjectReflection.t TypeRef)
    : M Block State (list (ITsInterface.t Block)) :=
  interfaces <~
    visitChildren
      (ProjectReflection.getReflectionsByKind project ReflectionKind.Interface)
      visitInterface ;;
  classes <~
    visitChildren
      (ProjectReflection.getReflectionsByKind project ReflectionKind.Class)
      visitClass ;;
  ret (interfaces ++ classes).

End Steps.
End Effects.

(** ** What the statements below speak about *)

(** The comment carries a tag called [name]. *)
Definition hasTag (name : jsstring) (comment : option Comment.t) : Prop :=
  exists c tags,
    comment = Some c /\ Comment.tags c = Some tags
    /\ Exists (fun tag => CommentTag.tagName tag = name) tags.

(** [tag] is the comment's first tag called [name]. *)
Definition firstTag (name : jsstring) (comment : option Comment.t)
    (tag : CommentTag.t) : Prop :=
  exists c before after,
    comment = Some c /\ Comment.tags c = Some (before ++ tag :: after)
    /\ Forall (fun other => CommentTag.tagName other <> name) before
    /\ CommentTag.tagName tag = name.

(** The default-value derivation of the specification, as a relation between
    the explicit value, the comment and the derived value. *)
Definition DefaultValueDerivation (explicit : option jsstring)
    (comment : option Comment.t) (derived : option jsstring) : Prop :=
  (forall v, explicit = Some v -> derived = Some v)
  /\ (explicit = None ->
      forall tag, firstTag (str "default") comment tag ->
                  derived = Some (trim (CommentTag.text tag)))
  /\ (explicit = None -> ~ hasTag (str "default") comment -> derived = None).

(** The comment text in the specification's words: the short summary, then
    a blank line and the body when there is one, then a blank line and the
    tag lines when there are tags. *)
Fixpoint spec_tagLines (tags : list CommentTag.t) : list jsstring :=
  match tags with
  | [] => []
  | tag :: rest =>
      if jsstring_eqb (CommentTag.tagName tag) (str "default")
         || jsstring_eqb (CommentTag.tagName tag) (str "deprecated")
      then spec_tagLines rest
      else (str "@" ++ CommentTag.tagName tag ++ str " " ++ CommentTag.text tag)
             :: spec_tagLines rest
  end.

Definition spec_blankLine : jsstring := [LF; LF].

Definition spec_commentText (comment : Comment.t) : jsstring :=
  let summary :=
    match Comment.shortText comment with Some s => s | None => [] end in
  let body :=
    match Comment.text comment with
    | None | Some [] => []
    | Some body => spec_blankLine ++ body
    end in
  let tagBlock :=
    match Comment.tags comment with
    | None | Some [] => []
    | Some tags => spec_blankLine ++ join [LF] (spec_tagLines tags)
    end in
  summary ++ body ++ tagBlock.

(** The same text with a tag list counted as present whenever the comment
    has one, be it empty. *)
Definition commentText (comment : Comment.t) : jsstring :=
  let summary :=
    match Comment.shortText comment with Some s => s | None => [] end in
  let body :=
    match Comment.text comment with
    | None | Some [] => []
    | Some body => spec_blankLine ++ body
    end in
  let tagBlock :=
    match Comment.tags comment with
    | None => []
    | Some tags => spec_blankLine ++ join [LF] (spec_tagLines tags)
    end in
  summary ++ body ++ tagBlock.

Definition hasFlags (def : Reflection.t) : Prop := Reflection.flags def <> None.

(** The container reflection with the given base fields and children, and
    the visitor built from a compiler and a value of [includeNonExported]. *)
Definition containerOf {TypeRef} (base : Reflection.t)
    (children : list (DeclarationReflection.t TypeRef))
    : ContainerReflection.t TypeRef :=
  {| ContainerReflection.base := base;
     ContainerReflection.children := Some children |}.

Definition visitorWith {Block} (compiler : ICompiler Block)
    (includeNonExported : option bool) : Visitor Block :=
  {| compiler := compiler;
     options := {| includeNonExported := includeNonExported |} |}.

(** The comment is missing or carries no tag list. *)
Definition noTags (comment : option Comment.t) : Prop :=
  comment = None \/ exists c, comment = Some c /\ Comment.tags c = None.

(** Every code unit of the string is white space. *)
Definition blank (s : jsstring) : Prop := forallb isWhiteSpace s = true.

(** Every tag is one that [renderComment] leaves out of the text. *)
Definition onlyHiddenTags (tags : list CommentTag.t) : Prop :=
  Forall
    (fun tag =>
       CommentTag.tagName tag = str "default"
       \/ CommentTag.tagName tag = str "deprecated")
    tags.

(** The comment without its tag list. *)
Definition withoutTags (comment : Comment.t) : Comment.t :=
  {| Comment.shortText := Comment.shortText comment;
     Comment.text := Comment.text comment;
     Comment.tags := None |}.

(** The kinds of the entries below an interface or class entry. *)
Definition signatureKinded {Block} (entry : ITsMethodSignature.t Block) : Prop :=
  ITsDocBase.kind (ITsMethodSignature.base entry) = Kind.Signature
  /\ Forall
       (fun param =>
          ITsDocBase.kind (ITsMethodParameter.base param) = Kind.Parameter_)
       (ITsMethodSignature.parameters entry).

Definition methodKinded {Block} (entry : ITsMethod.t Block) : Prop :=
  ITsDocBase.kind (ITsMethod.base entry) = Kind.Method
  /\ Forall signatureKinded (ITsMethod.signatures entry).

Definition membersKinded {Block} (entry : ITsInterface.t Block) : Prop :=
  Forall methodKinded (ITsInterface.methods entry)
  /\ Forall
       (fun property =>
          ITsDocBase.kind (ITsProperty.base property) = Kind.Property)
       (ITsInterface.properties entry).

(** The project with the given registry. *)
Definition projectOf {TypeRef} (reflections : list (ContainerReflection.t TypeRef))
    : ProjectReflection.t TypeRef :=
  {| ProjectReflection.reflections := reflections |}.

(** ** A sample project

    [interface Foo { bar(x: number, y?): string; size: number }] and
    [class Impl], with a visitor whose renderer returns its input. *)
Module Sample.
Definition noFlags : ReflectionFlags.t :=
  {| ReflectionFlags.isExported := None;
     ReflectionFlags.isExternal := None;
     ReflectionFlags.isOptional := None;
     ReflectionFlags.isPrivate := None;
     ReflectionFlags.isProtected := None;
     ReflectionFlags.isPublic := None;
     ReflectionFlags.isRest := None;
     ReflectionFlags.isStatic := None |}.

Definition exportedFlags (b : bool) : ReflectionFlags.t :=
  {| ReflectionFlags.isExported := Some b;
     ReflectionFlags.isExternal := None;
     ReflectionFlags.isOptional := None;
     ReflectionFlags.isPrivate := None;
     ReflectionFlags.isProtected := None;
     ReflectionFlags.isPublic := None;
     ReflectionFlags.isRest := None;
     ReflectionFlags.isStatic := None |}.

Definition tag (name text : string) : CommentTag.t :=
  {| CommentTag.tagName := str name; CommentTag.text := str text |}.

(** shortText [S], text [T], tags [@deprecated] and [@param x: the value]. *)
Definition comment : Comment.t :=
  {| Comment.shortText := Some (str "S");
     Comment.text := Some (str "T");
     Comment.tags := Some [tag "deprecated" ""; tag "param" "x: the value"] |}.

Definition defaultComment : Comment.t :=
  {| Comment.shortText := Some (str "The size.");
     Comment.text := Some [];
     Comment.tags := Some [tag "default" "  42  "] |}.

Definition reflection (name : string) (kind : ReflectionKind.t)
    (flags : option ReflectionFlags.t) (comment : option Comment.t)
    : Reflection.t :=
  {| Reflection.name := str name;
     Reflection.kind := kind;
     Reflection.flags := flags;
     Reflection.comment := comment;
     Reflection.sources :=
       Some [{| SourceReference.file :=
                  Some {| SourceFile.fullFileName := str "/repo/src/foo.ts" |} |}] |}.

Definition x : ParameterReflection.t jsstring :=
  {| ParameterReflection.base :=
       reflection "x" ReflectionKind.Parameter_ (Some (exportedFlags false)) None;
     ParameterReflection.type := Some (str "number");
     ParameterReflection.defaultValue := None |}.

Definition y : ParameterReflection.t jsstring :=
  {| ParameterReflection.base :=
       reflection "y" ReflectionKind.Parameter_ None (Some defaultComment);
     ParameterReflection.type := None;
     ParameterReflection.defaultValue := Some (str "7") |}.

Definition barSignature : SignatureReflection.t jsstring :=
  {| SignatureReflection.base :=
       reflection "bar" ReflectionKind.CallSignature (Some noFlags) (Some comment);
     SignatureReflection.parameters := Some [x; y];
     SignatureReflection.type := Some (str "string") |}.

Definition bar (signatures : option (list (SignatureReflection.t jsstring)))
    : DeclarationReflection.t jsstring :=
  {| DeclarationReflection.base :=
       reflection "bar" ReflectionKind.Method (Some (exportedFlags true)) None;
     DeclarationReflection.signatures := signatures;
     DeclarationReflection.type := None;
     DeclarationReflection.defaultValue := None |}.

Definition size (exported : bool) : DeclarationReflection.t jsstring :=
  {| DeclarationReflection.base :=
       reflection "size" ReflectionKind.Property
         (Some (exportedFlags exported)) (Some defaultComment);
     DeclarationReflection.signatures := None;
     DeclarationReflection.type := Some (str "number");
     DeclarationReflection.defaultValue := None |}.

Definition container (name : string) (kind : ReflectionKind.t)
    (children : list (DeclarationReflection.t jsstring))
    : ContainerReflection.t jsstring :=
  {| ContainerReflection.base :=
       reflection name kind (Some (exportedFlags true)) (Some comment);
     ContainerReflection.children := Some children |}.

Definition Foo : ContainerReflection.t jsstring :=
  container "Foo" ReflectionKind.Interface [bar (Some [barSignature]); size false].

Definition Impl : ContainerReflection.t jsstring :=
  container "Impl" ReflectionKind.Class [size true].

(** The class is registered before the interface. *)
Definition project : ProjectReflection.t jsstring :=
  {| ProjectReflection.reflections := [Impl; Foo] |}.

(** The same project with a method that carries no signature list. *)
Definition brokenProject : ProjectReflection.t jsstring :=
  {| ProjectReflection.reflections :=
       [container "Foo" ReflectionKind.Interface [bar None]] |}.

Definition cwd : jsstring := str "/repo".

(** [path.relative] on a file below the working directory. *)
Fixpoint relative (from to : jsstring) : jsstring :=
  match from, to with
  | [], _ :: rest => rest
  | a :: from', b :: to' => if N.eqb a b then relative from' to' else to
  | _, _ => to
  end.

Definition resolveTypeString (type : option jsstring) : jsstring :=
  match type with Some name => name | None => str "any" end.

Definition resolveSignature (sig : SignatureReflection.t jsstring) : jsstring :=
  str "(...) => " ++ resolveTypeString (SignatureReflection.type sig).

Definition visitor (includeNonExported : option bool) : Visitor jsstring :=
  {| compiler := {| renderBlock := fun text => text |};
     options := {| includeNonExported := includeNonExported |} |}.

(** A parameter documented with a blank [@default] tag, a comment whose only
    tag is [@deprecated], and an enumeration without flags. *)
Definition blankDefaultComment : Comment.t :=
  {| Comment.shortText := Some (str "Padding.");
     Comment.text := None;
     Comment.tags := Some [tag "default" "   "] |}.

Definition z : ParameterReflection.t jsstring :=
  {| ParameterReflection.base :=
       reflection "z" ReflectionKind.Parameter_ None (Some blankDefaultComment);
     ParameterReflection.type := None;
     ParameterReflection.defaultValue := None |}.

Definition deprecatedOnlyComment : Comment.t :=
  {| Comment.shortText := Some (str "Old.");
     Comment.text := None;
     Comment.tags := Some [tag "deprecated" "use bar"] |}.

Definition Color : ContainerReflection.t jsstring :=
  {| ContainerReflection.base := reflection "Color" ReflectionKind.Enum None None;
     ContainerReflection.children := None |}.

(** An interface that is not exported and whose method has no signatures. *)
Definition Hidden : ContainerReflection.t jsstring :=
  {| ContainerReflection.base :=
       reflection "Hidden" ReflectionKind.Interface (Some (exportedFlags false)) None;
     ContainerReflection.children := Some [bar None] |}.

(** An exported interface with a property that carries no flags. *)
Definition unflagged : DeclarationReflection.t jsstring :=
  {| DeclarationReflection.base :=
       reflection "p" ReflectionKind.Property None None;
     DeclarationReflection.signatures := None;
     DeclarationReflection.type := None;
     DeclarationReflection.defaultValue := None |}.

Definition Loose : ContainerReflection.t jsstring :=
  {| ContainerReflection.base :=
       reflection "Loose" ReflectionKind.Interface (Some (exportedFlags true)) None;
     ContainerReflection.children := Some [size true; unflagged] |}.

(** A comment with an empty tag list, and an interface that is not exported
    and whose children carry neither flags nor signatures. *)
Definition emptyTagsComment : Comment.t :=
  {| Comment.shortText := Some (str "S");
     Comment.text := None;
     Comment.tags := Some [] |}.

Definition HiddenLoose : ContainerReflection.t jsstring :=
  {| ContainerReflection.base :=
       reflection "HiddenLoose" ReflectionKind.Interface
         (Some (exportedFlags false)) None;
     ContainerReflection.children := Some [unflagged; bar None] |}.

(** A world whose compiler counts the calls of [renderBlock] and returns the
    text, and one whose compiler puts the count in front of the text. *)
Definition countingWorld : Effects.World jsstring nat :=
  {| Effects.this_options := {| includeNonExported := None |};
     Effects.this_compiler := fun calls text => (text, S calls);
     Effects.compilerState := 0;
     Effects.process_cwd := cwd |}.

Definition numberingWorld : Effects.World jsstring nat :=
  {| Effects.this_options := {| includeNonExported := None |};
     Effects.this_compiler := fun calls text => (N.of_nat calls :: text, S calls);
     Effects.compilerState := 0;
     Effects.process_cwd := cwd |}.
End Sample.

(** ** The visitor, over its imports *)

Section WithCollaborators.
(** typedoc's [Type] objects and the compiler's rendered [IBlock]s are
    passed through unread. *)
Variables TypeRef Block : Type.

(** node's [process.cwd()] and [path.relative]. *)
Variable cwd : jsstring.
Variable relative : jsstring -> jsstring -> jsstring.

(** [./typestring], imported by the visitor. *)
Variable resolveTypeString : option TypeRef -> jsstring.
Variable resolveSignature : SignatureReflection.t TypeRef -> jsstring.


(** [x && y] on strings yields [x] when [x] is [undefined] or empty. *)
Definition getFileName (ref : Reflection.t) : option jsstring :=
  let sources :=
    match Reflection.sources ref with Some s => s | None => [] end in
  let source := nth_error sources 0 in
  let fileName :=
    match source with
    | None => None
    | Some source =>
        match SourceReference.file source with
        | None => None
        | Some file => Some (SourceFile.fullFileName file)
        end
    end in
  match fileName with
  | None => None
  | Some [] => Some []
  | Some fileName => Some (relative cwd fileName)
  end.

Section Methods.
Variable this : Visitor Block.

Definition filterReflection (def : Reflection.t) : result bool :=
  match Reflection.flags def with
  | None => Throw (CannotReadProperty "isExported")
  | Some flags =>
      Ok (isTrue (ReflectionFlags.isExported flags)
          || isTrue (includeNonExported (options this)))
  end.

(** Converts a typedoc comment object to a rendered [IBlock]. *)
Definition renderComment (comment : option Comment.t) : option Block :=
  match comment with
  | None => None
  | Some comment =>
      let documentation := [] in
      let documentation :=
        match Comment.shortText comment with
        | Some ((_ :: _) as shortText) => documentation ++ shortText
        | _ => documentation
        end in
      let documentation :=
        match Comment.text comment with
        | Some ((_ :: _) as text) => documentation ++ [LF; LF] ++ text
        | _ => documentation
        end in
      let documentation :=
        match Comment.tags comment with
        | Some tags =>
            documentation ++ [LF; LF] ++
            join [LF]
              (map
                 (fun tag =>
                    str "@" ++ CommentTag.tagName tag ++ str " "
                    ++ CommentTag.text tag)
                 (filter
                    (fun tag =>
                       negb (jsstring_eqb (CommentTag.tagName tag)
                               (str "default"))
                       && negb (jsstring_eqb (CommentTag.tagName tag)
                                  (str "deprecated")))
                    tags))
        | None => documentation
        end in
      Some (renderBlock (compiler this) documentation)
  end.

Definition makeDocEntry (def : Reflection.t) (kind : Kind.t)
    : ITsDocBase.t Block :=
  {| ITsDocBase.documentation := renderComment (Reflection.comment def);
     ITsDocBase.fileName := getFileName def;
     ITsDocBase.flags := getFlags def;
     ITsDocBase.kind := kind;
     ITsDocBase.name := Reflection.name def |}.

(** Visits each child that passes the filter condition (based on
    options): [children.filter(this.filterReflection).map(visitor)]. *)
Definition visitChildren {R T} `{Reflects R} (children : list R)
    (visitor : R -> result T) : result (list T) :=
  kept <- filterM (fun def => filterReflection (asReflection def)) children ;;
  mapM visitor kept.

Definition visitParameter (param : ParameterReflection.t TypeRef)
    : ITsMethodParameter.t Block :=
  {| ITsMethodParameter.base :=
       makeDocEntry (asReflection param) Kind.Parameter_;
     ITsMethodParameter.defaultValue := getDefaultValue param;
     ITsMethodParameter.type :=
       resolveTypeString (ParameterReflection.type param) |}.

Definition visitSignature (sig : SignatureReflection.t TypeRef)
    : ITsMethodSignature.t Block :=
  {| ITsMethodSignature.base :=
       makeDocEntry (asReflection sig) Kind.Signature;
     ITsMethodSignature.parameters :=
       map (fun param => visitParameter param)
         (match SignatureReflection.parameters sig with
          | Some parameters => parameters
          | None => []
          end);
     ITsMethodSignature.returnType :=
       resolveTypeString (SignatureReflection.type sig);
     ITsMethodSignature.type := resolveSignature sig |}.

(** [def.signatures.map] reads [map] of [undefined] when the method
    carries no signature list. *)
Definition visitMethod (def : DeclarationReflection.t TypeRef)
    : result (ITsMethod.t Block) :=
  let entry := makeDocEntry (asReflection def) Kind.Method in
  match DeclarationReflection.signatures def with
  | None => Throw (CannotReadProperty "map")
  | Some signatures =>
      Ok {| ITsMethod.base := entry;
            ITsMethod.signatures :=
              map (fun sig => visitSignature sig) signatures |}
  end.

Definition visitProperty (def : DeclarationReflection.t TypeRef)
    : ITsProperty.t Block :=
  {| ITsProperty.base := makeDocEntry (asReflection def) Kind.Property;
     ITsProperty.defaultValue := getDefaultValue def;
     ITsProperty.type :=
       resolveTypeString (DeclarationReflection.type def) |}.

Definition visitInterface (def : ContainerReflection.t TypeRef)
    : result (ITsInterface.t Block) :=
  let entry := makeDocEntry (asReflection def) Kind.Interface in
  methods <-
    visitChildren
      (ContainerReflection.getChildrenByKind def ReflectionKind.Method)
      visitMethod ;;
  properties <-
    visitChildren
      (ContainerReflection.getChildrenByKind def ReflectionKind.Property)
      (fun def => Ok (visitProperty def)) ;;
  Ok {| ITsInterface.base := entry;
        ITsInterface.methods := methods;
        ITsInterface.properties := properties |}.

Definition visitClass (def : ContainerReflection.t TypeRef)
    : result (ITsClass Block) :=
  entry <- visitInterface def ;;
  Ok {| ITsInterface.base :=
          ITsDocBase.withKind (ITsInterface.base entry) Kind.Class;
        ITsInterface.methods := ITsInterface.methods entry;
        ITsInterface.properties := ITsInterface.properties entry |}.

Definition visitProject (project : ProjectReflection.t TypeRef)
    : result (list (ITsInterface.t Block)) :=
  interfaces <-
    visitChildren
      (ProjectReflection.getReflectionsByKind project
         ReflectionKind.Interface)
      visitInterface ;;
  classes <-
    visitChildren
      (ProjectReflection.getReflectionsByKind project
         ReflectionKind.Class)
      visitClass ;;
  Ok (interfaces ++ classes).

(** The reflection passes [filterReflection] without an exception. *)
Definition kept (def : Reflection.t) : bool :=
  match filterReflection def with
  | Ok b => b
  | Throw _ => false
  end.

(** [out] holds the entries of the kept reflections of [defs], in the order
    of [defs], and the filter raised on none of [defs]. *)
Definition visitedInOrder {R T} `{Reflects R} (visitor : R -> result T)
    (defs : list R) (out : list T) : Prop :=
  Forall (fun def => hasFlags (asReflection def)) defs
  /\ Forall2 (fun def entry => visitor def = Ok entry)
       (filter (fun def => kept (asReflection def)) defs) out.

(** The flags of an entry whose reflection passed the export filter. *)
Definition passedFilter (flags : option ITsFlags.t) : Prop :=
  exists f,
    flags = Some f
    /\ (ITsFlags.isExported f = Some true
        \/ includeNonExported (options this) = Some true).

(** What [visitInterface] needs of a child, and [visitProject] of a
    registered reflection, to return: flags where the filter reads them and
    a signature list on each method that passes the filter. *)
Definition memberVisitable (child : DeclarationReflection.t TypeRef) : Prop :=
  match Reflection.kind (asReflection child) with
  | ReflectionKind.Method =>
      hasFlags (asReflection child)
      /\ (kept (asReflection child) = true ->
          DeclarationReflection.signatures child <> None)
  | ReflectionKind.Property => hasFlags (asReflection child)
  | _ => True
  end.

Definition childrenVisitable (def : ContainerReflection.t TypeRef) : Prop :=
  forall children,
    ContainerReflection.children def = Some children ->
    Forall memberVisitable children.

Definition containerVisitable (def : ContainerReflection.t TypeRef) : Prop :=
  match Reflection.kind (asReflection def) with
  | ReflectionKind.Interface | ReflectionKind.Class =>
      hasFlags (asReflection def)
      /\ (kept (asReflection def) = true -> childrenVisitable def)
  | _ => True
  end.

(** ** Strings, lists and exceptions *)

Lemma jsstring_eqb_eq (a b : jsstring) : jsstring_eqb a b = true <-> a = b.
Proof.
  revert b; induction a as [|x a IH]; intros [|y b]; simpl;
    try (split; [discriminate | discriminate]); [split; reflexivity|].
  rewrite andb_true_iff, N.eqb_eq, IH.
  split; [intros [-> ->]; reflexivity | intros H; injection H; auto].
Qed.

Lemma jsstring_eqb_neq (a b : jsstring) : jsstring_eqb a b = false <-> a <> b.
Proof.
  rewrite <- jsstring_eqb_eq. destruct (jsstring_eqb a b); split; congruence.
Qed.

Lemma trimStart_split (s : jsstring) :
  exists blank, s = blank ++ trimStart s /\ forallb isWhiteSpace blank = true.
Proof.
  induction s as [|c s [blank [Hs Hb]]]; simpl.
  - exists []; auto.
  - destruct (isWhiteSpace c) eqn:Hc.
    + exists (c :: blank); simpl; rewrite Hc, Hb, <- Hs; auto.
    + exists []; auto.
Qed.

Lemma trimStart_head (s : jsstring) c rest :
  trimStart s = c :: rest -> isWhiteSpace c = false.
Proof.
  induction s as [|d s IH]; simpl; [discriminate|].
  destruct (isWhiteSpace d) eqn:Hd; auto.
  intros H; injection H as <- _; exact Hd.
Qed.

(** [trim] removes a run of white space at each end and nothing else. *)
Lemma trim_split (s : jsstring) :
  exists before after,
    s = before ++ trim s ++ after
    /\ forallb isWhiteSpace before = true
    /\ forallb isWhiteSpace after = true.
Proof.
  unfold trim, trimEnd.
  destruct (trimStart_split s) as [before [Hs Hb]].
  destruct (trimStart_split (rev (trimStart s))) as [after [Hr Ha]].
  exists before, (rev after); repeat split; auto.
  - rewrite Hs at 1. f_equal.
    rewrite <- (rev_involutive (trimStart s)), Hr at 1.
    apply rev_app_distr.
  - rewrite forallb_forall in *. intros c Hc. apply Ha, in_rev, Hc.
Qed.

Lemma trim_last (s : jsstring) front c :
  trim s = front ++ [c] -> isWhiteSpace c = false.
Proof.
  unfold trim, trimEnd. intros H.
  apply (f_equal (@rev N)) in H.
  rewrite rev_involutive, rev_app_distr in H. simpl in H.
  eapply trimStart_head, H.
Qed.

Lemma find_first_none {A} (p : A -> bool) (l : list A) :
  Forall (fun x => p x = false) l -> find_first p l = None.
Proof.
  induction 1 as [|x l Hx _ IH]; simpl; [reflexivity|].
  rewrite Hx; exact IH.
Qed.

Lemma find_first_app {A} (p : A -> bool) (before after : list A) (x : A) :
  Forall (fun y => p y = false) before -> p x = true ->
  find_first p (before ++ x :: after) = Some x.
Proof.
  induction 1 as [|y l Hy _ IH]; simpl; intros Hx.
  - rewrite Hx; reflexivity.
  - rewrite Hy; auto.
Qed.

Lemma bind_Ok {A B} (r : result A) (k : A -> result B) (b : B) :
  bind r k = Ok b <-> exists a, r = Ok a /\ k a = Ok b.
Proof.
  destruct r as [a|e]; simpl; split.
  - eauto.
  - intros [a' [H Hk]]; injection H as <-; exact Hk.
  - discriminate.
  - intros [a' [H _]]; discriminate.
Qed.

Lemma mapM_Ok {A B} (f : A -> result B) (l : list A) (out : list B) :
  mapM f l = Ok out <-> Forall2 (fun x y => f x = Ok y) l out.
Proof.
  revert out; induction l as [|x l IH]; intros out; simpl.
  - split; [intros H; injection H as <-; constructor | inversion 1; auto].
  - rewrite bind_Ok. split.
    + intros [y [Hy H]]. apply bind_Ok in H as [ys [Hys H]].
      injection H as <-. constructor; [exact Hy | apply IH, Hys].
    + inversion 1 as [|? y ? ys Hy Hys]; subst.
      exists y; split; [exact Hy|]. apply IH in Hys; rewrite Hys; reflexivity.
Qed.

Lemma mapM_ext {A B} (f g : A -> result B) (l : list A) :
  (forall x, f x = g x) -> mapM f l = mapM g l.
Proof.
  intros H; induction l as [|x l IH]; simpl; [|rewrite H, IH]; reflexivity.
Qed.

Lemma filterM_ext {A} (p q : A -> result bool) (l : list A) :
  (forall x, p x = q x) -> filterM p l = filterM q l.
Proof.
  intros H; induction l as [|x l IH]; simpl; [|rewrite H, IH]; reflexivity.
Qed.

Lemma filterM_skip {A} (p : A -> result bool) (before after : list A) x :
  p x = Ok false -> filterM p (before ++ x :: after) = filterM p (before ++ after).
Proof.
  intros Hx; induction before as [|y l IH]; simpl.
  - rewrite Hx; simpl. destruct (filterM p after); reflexivity.
  - rewrite IH; reflexivity.
Qed.

Lemma filterM_Ok {A} (p : A -> result bool) (l out : list A) :
  filterM p l = Ok out <->
  Forall (fun x => exists b, p x = Ok b) l
  /\ out = filter (fun x => match p x with Ok b => b | Throw _ => false end) l.
Proof.
  revert out; induction l as [|x l IH]; intros out; simpl.
  - split; [intros H; injection H as <-; auto | intros [_ ->]; reflexivity].
  - rewrite bind_Ok. split.
    + intros [b [Hb H]]. apply bind_Ok in H as [xs [Hxs H]].
      injection H as <-. apply IH in Hxs as [Hall ->].
      rewrite Hb. split; [constructor; eauto | reflexivity].
    + intros [Hall ->]. inversion Hall as [|? ? [b Hb] Hl]; subst.
      exists b; split; [exact Hb|]. rewrite Hb.
      rewrite (proj2 (IH _) (conj Hl eq_refl)); reflexivity.
Qed.

Lemma tagLines_filter_map (tags : list CommentTag.t) :
  map (fun tag =>
         str "@" ++ CommentTag.tagName tag ++ str " " ++ CommentTag.text tag)
    (filter
       (fun tag =>
          negb (jsstring_eqb (CommentTag.tagName tag) (str "default"))
          && negb (jsstring_eqb (CommentTag.tagName tag) (str "deprecated")))
       tags)
  = spec_tagLines tags.
Proof.
  induction tags as [|tag tags IH]; [reflexivity|].
  cbn [filter spec_tagLines]. rewrite <- negb_orb.
  destruct (_ || _); cbn [negb map]; rewrite IH; reflexivity.
Qed.

Lemma getCommentTag_absent (name : jsstring) (comment : option Comment.t) :
  ~ hasTag name comment -> getCommentTag comment name = None.
Proof.
  unfold hasTag, getCommentTag. intros Hno.
  destruct comment as [c|]; [|reflexivity].
  destruct (Comment.tags c) as [tags|] eqn:Htags; [|reflexivity].
  apply find_first_none, Forall_forall. intros tag Hin.
  apply jsstring_eqb_neq. intros Heq. apply Hno.
  exists c, tags; repeat split; auto.
  apply Exists_exists; eauto.
Qed.

Lemma getCommentTag_first (name : jsstring) (comment : option Comment.t) tag :
  firstTag name comment tag -> getCommentTag comment name = Some tag.
Proof.
  intros (c & before & after & -> & Htags & Hbefore & Hname).
  unfold getCommentTag. rewrite Htags.
  apply find_first_app.
  - eapply Forall_impl; [|exact Hbefore]. intros other; apply jsstring_eqb_neq.
  - apply jsstring_eqb_eq, Hname.
Qed.

Lemma getDefaultValue_derivation {R} `{DefaultValueContainer R} (ref : R) :
  DefaultValueDerivation (explicitDefaultValue ref)
    (Reflection.comment (asReflection ref)) (getDefaultValue ref).
Proof.
  unfold DefaultValueDerivation, getDefaultValue. repeat split.
  - intros v ->; reflexivity.
  - intros -> tag Htag. rewrite (getCommentTag_first Htag); reflexivity.
  - intros -> Hno. rewrite (getCommentTag_absent Hno); reflexivity.
Qed.

Lemma filterReflection_Ok (def : Reflection.t) :
  hasFlags def <-> exists b, filterReflection def = Ok b.
Proof.
  unfold hasFlags, filterReflection.
  destruct (Reflection.flags def); split; eauto; try congruence.
  intros [b Hb]; discriminate.
Qed.

Lemma visitChildren_Ok {R T} `{Reflects R} (visitor : R -> result T)
    (children : list R) (out : list T) :
  visitChildren children visitor = Ok out <->
  visitedInOrder visitor children out.
Proof.
  unfold visitChildren, visitedInOrder. rewrite bind_Ok. split.
  - intros [passed [Hf Hm]]. apply filterM_Ok in Hf as [Hall ->].
    apply mapM_Ok in Hm. split; [|exact Hm].
    eapply Forall_impl; [|exact Hall].
    intros def; apply filterReflection_Ok.
  - intros [Hall Hm]. eexists; split; [|apply mapM_Ok, Hm].
    apply filterM_Ok; split; [|reflexivity].
    eapply Forall_impl; [|exact Hall].
    intros def; apply filterReflection_Ok.
Qed.

(** C1, as the code has it: [visitSignature] maps every parameter of the
    signature, in order, to its entry; neither the parameter's flags nor
    [includeNonExported] is consulted, so the [i]-th parameter is the [i]-th
    entry of the output whatever its exported flag is. *)
Theorem visitSignature_keeps_every_parameter
    (sig : SignatureReflection.t TypeRef) parameters :
  SignatureReflection.parameters sig = Some parameters ->
  List.length (ITsMethodSignature.parameters (visitSignature sig))
  = List.length parameters
  /\ forall i param,
       nth_error parameters i = Some param ->
       nth_error (ITsMethodSignature.parameters (visitSignature sig)) i
       = Some (visitParameter param).
Proof.
  intros Hparams. unfold visitSignature; simpl. rewrite Hparams.
  split; [apply length_map|].
  intros i param Hi. rewrite nth_error_map, Hi; reflexivity.
Qed.

(** C4, as the code has it: the documentation of an entry is absent when
    the reflection has no comment; otherwise it is the renderer applied to
    the short text, then a blank line and the body when the body is
    non-empty, then, when the comment has a tag list, empty or not, a blank
    line and one [@tagName tagText] line for each tag other than [@default]
    and [@deprecated], in tag order.  This is the text of the specification
    unless the tag list is empty, where it is that text followed by a blank
    line.  The comment with shortText S, text T and tags deprecated and
    param renders the text [S\n\nT\n\n@param x: the value]. *)
Theorem renderComment_assembles_text (ref : Reflection.t) (kind : Kind.t) :
  ITsDocBase.documentation (makeDocEntry ref kind)
  = match Reflection.comment ref with
    | None => None
    | Some comment =>
        Some (renderBlock (compiler this) (commentText comment))
    end
  /\ (forall comment,
        Comment.tags comment <> Some [] ->
        commentText comment = spec_commentText comment)
  /\ (forall comment,
        Comment.tags comment = Some [] ->
        commentText comment = spec_commentText comment ++ [LF; LF])
  /\ renderComment (Some Sample.comment)
     = Some (renderBlock (compiler this)
               (str "S" ++ [LF; LF] ++ str "T" ++ [LF; LF]
                ++ str "@param x: the value")).
Proof.
  split; [|split; [|split; [|reflexivity]]].
  - unfold makeDocEntry, renderComment, commentText, spec_blankLine.
    cbn [ITsDocBase.documentation].
    destruct (Reflection.comment ref) as [c|]; [|reflexivity].
    do 2 f_equal.
    destruct (Comment.tags c) as [tags|]; [rewrite tagLines_filter_map|];
      destruct (Comment.shortText c) as [[|a s]|];
      destruct (Comment.text c) as [[|b t]|];
      rewrite <- ?app_assoc; cbn [app]; rewrite ?app_nil_r; reflexivity.
  - intros comment Htags. unfold commentText, spec_commentText.
    destruct (Comment.tags comment) as [[|tag tags]|];
      [congruence | reflexivity | reflexivity].
  - intros comment Htags. unfold commentText, spec_commentText, spec_blankLine.
    rewrite Htags. cbn [spec_tagLines join].
    rewrite !app_nil_r, <- !app_assoc. reflexivity.
Qed.

(** C5: [isDeprecated] is absent when the comment has no [@deprecated] tag,
    [true] when the first such tag has a text that is empty after trimming,
    and the trimmed text otherwise; the flags of an entry carry that value. *)
Theorem getIsDeprecated_cases (ref : Reflection.t) (kind : Kind.t) :
  (~ hasTag (str "deprecated") (Reflection.comment ref) ->
   getIsDeprecated ref = None)
  /\ (forall tag,
        firstTag (str "deprecated") (Reflection.comment ref) tag ->
        trim (CommentTag.text tag) = [] ->
        getIsDeprecated ref = Some (JsBool true))
  /\ (forall tag,
        firstTag (str "deprecated") (Reflection.comment ref) tag ->
        trim (CommentTag.text tag) <> [] ->
        getIsDeprecated ref = Some (JsString (trim (CommentTag.text tag))))
  /\ (forall flags,
        ITsDocBase.flags (makeDocEntry ref kind) = Some flags ->
        ITsFlags.isDeprecated flags = getIsDeprecated ref).
Proof.
  unfold getIsDeprecated. repeat split.
  - intros Hno. rewrite (getCommentTag_absent Hno); reflexivity.
  - intros tag Htag Hempty.
    rewrite (getCommentTag_first Htag), Hempty; reflexivity.
  - intros tag Htag Hfull. rewrite (getCommentTag_first Htag).
    apply jsstring_eqb_neq in Hfull. rewrite Hfull; reflexivity.
  - intros flags. simpl. unfold getFlags.
    destruct (Reflection.flags ref); [|discriminate].
    intros Hflags; injection Hflags as <-; reflexivity.
Qed.

(** C6: the default value of a property entry and of a parameter entry is
    the explicit default value when the reflection carries one; otherwise
    the trimmed text of the comment's first [@default] tag; otherwise
    absent. *)
Theorem defaultValue_derivation
    (def : DeclarationReflection.t TypeRef)
    (param : ParameterReflection.t TypeRef) :
  DefaultValueDerivation (DeclarationReflection.defaultValue def)
    (Reflection.comment (asReflection def))
    (ITsProperty.defaultValue (visitProperty def))
  /\ DefaultValueDerivation (ParameterReflection.defaultValue param)
       (Reflection.comment (asReflection param))
       (ITsMethodParameter.defaultValue (visitParameter param)).
Proof.
  split.
  - exact (getDefaultValue_derivation def).
  - exact (getDefaultValue_derivation param).
Qed.

(** C7: when [visitInterface] yields an entry, [visitClass] yields an entry
    with the same documentation, fileName, flags, name, methods and
    properties, and the kind [Class] where the interface entry has
    [Interface]; when [visitInterface] throws, [visitClass] throws the
    same. *)
Theorem visitClass_is_visitInterface_but_kind
    (def : ContainerReflection.t TypeRef) :
  (forall entry,
     visitInterface def = Ok entry ->
     exists class,
       visitClass def = Ok class
       /\ ITsDocBase.documentation (ITsInterface.base class)
          = ITsDocBase.documentation (ITsInterface.base entry)
       /\ ITsDocBase.fileName (ITsInterface.base class)
          = ITsDocBase.fileName (ITsInterface.base entry)
       /\ ITsDocBase.flags (ITsInterface.base class)
          = ITsDocBase.flags (ITsInterface.base entry)
       /\ ITsDocBase.name (ITsInterface.base class)
          = ITsDocBase.name (ITsInterface.base entry)
       /\ ITsInterface.methods class = ITsInterface.methods entry
       /\ ITsInterface.properties class = ITsInterface.properties entry
       /\ ITsDocBase.kind (ITsInterface.base class) = Kind.Class
       /\ ITsDocBase.kind (ITsInterface.base entry) = Kind.Interface)
  /\ (forall e, visitInterface def = Throw e ->
                visitClass def = Throw e).
Proof.
  unfold visitClass. split.
  - intros entry Hentry. rewrite Hentry; simpl.
    eexists; split; [reflexivity|]. simpl. repeat split.
    unfold visitInterface in Hentry.
    apply bind_Ok in Hentry as [methods [_ Hentry]].
    apply bind_Ok in Hentry as [properties [_ Hentry]].
    injection Hentry as <-; reflexivity.
  - intros e He; rewrite He; reflexivity.
Qed.

(** C10: a signature without a parameter list yields an entry whose
    parameters are the empty list; a method without a signature list makes
    [visitMethod] throw, and a method with one yields the entries of its
    signatures. *)
Theorem visitSignature_defaults_parameters :
  (forall sig : SignatureReflection.t TypeRef,
     SignatureReflection.parameters sig = None ->
     ITsMethodSignature.parameters (visitSignature sig) = [])
  /\ (forall def : DeclarationReflection.t TypeRef,
        DeclarationReflection.signatures def = None ->
        visitMethod def = Throw (CannotReadProperty "map"))
  /\ (forall (def : DeclarationReflection.t TypeRef) signatures,
        DeclarationReflection.signatures def = Some signatures ->
        exists method,
          visitMethod def = Ok method
          /\ ITsMethod.signatures method = map visitSignature signatures).
Proof.
  repeat split.
  - intros sig Hnone. simpl. rewrite Hnone; reflexivity.
  - intros def Hnone. unfold visitMethod. rewrite Hnone; reflexivity.
  - intros def signatures Hsome. unfold visitMethod.
    rewrite Hsome. eexists; split; reflexivity.
Qed.

Lemma ReflectionKind_eqb_eq (a b : ReflectionKind.t) :
  ReflectionKind.eqb a b = true <-> a = b.
Proof.
  destruct a, b; simpl; split; intros H; try reflexivity; discriminate H.
Qed.

Lemma Forall2_total {A B} (f : A -> result B) (l : list A) :
  (forall x, In x l -> exists y, f x = Ok y) ->
  exists out, Forall2 (fun x y => f x = Ok y) l out.
Proof.
  induction l as [|x l IH]; intros Hf.
  - exists []; constructor.
  - destruct (Hf x (or_introl eq_refl)) as [y Hy].
    destruct IH as [out Hout]; [intros z Hz; apply Hf; right; exact Hz|].
    exists (y :: out); constructor; assumption.
Qed.

Lemma visitInterface_kind (def : ContainerReflection.t TypeRef) entry :
  visitInterface def = Ok entry ->
  ITsDocBase.kind (ITsInterface.base entry) = Kind.Interface.
Proof.
  unfold visitInterface. intros H.
  apply bind_Ok in H as [methods [_ H]].
  apply bind_Ok in H as [properties [_ H]].
  injection H as <-; reflexivity.
Qed.

Lemma visitClass_kind (def : ContainerReflection.t TypeRef) entry :
  visitClass def = Ok entry ->
  ITsDocBase.kind (ITsInterface.base entry) = Kind.Class.
Proof.
  unfold visitClass. intros H.
  apply bind_Ok in H as [found [_ H]]. injection H as <-; reflexivity.
Qed.

Lemma visitProject_Ok (project : ProjectReflection.t TypeRef) entries :
  visitProject project = Ok entries <->
  exists interfaces classes,
    entries = interfaces ++ classes
    /\ visitedInOrder visitInterface
         (ProjectReflection.getReflectionsByKind project ReflectionKind.Interface)
         interfaces
    /\ visitedInOrder visitClass
         (ProjectReflection.getReflectionsByKind project ReflectionKind.Class)
         classes.
Proof.
  unfold visitProject. rewrite bind_Ok. split.
  - intros [interfaces [Hi H]]. apply bind_Ok in H as [classes [Hc H]].
    injection H as <-. exists interfaces, classes.
    split; [reflexivity|]. split; apply visitChildren_Ok; assumption.
  - intros (interfaces & classes & -> & Hi & Hc).
    exists interfaces. split; [apply visitChildren_Ok, Hi|].
    apply visitChildren_Ok in Hc. rewrite Hc; reflexivity.
Qed.

Lemma Forall2_Ok_Forall {A B} (f : A -> result B) (P : B -> Prop) l out :
  (forall x y, f x = Ok y -> P y) ->
  Forall2 (fun x y => f x = Ok y) l out -> Forall P out.
Proof.
  intros HP; induction 1; constructor; eauto.
Qed.

Lemma getCommentTag_noTags (comment : option Comment.t) (name : jsstring) :
  noTags comment -> getCommentTag comment name = None.
Proof.
  unfold getCommentTag. intros [-> | [c [-> ->]]]; reflexivity.
Qed.

(** C8: [visitProject] returns exactly the sequences made of the entries of
    the kept interfaces, in the order the project lists them, followed by the
    entries of the kept classes, in the order the project lists them; the
    former all have kind [Interface], the latter kind [Class].  A project
    without reflections yields the empty sequence. *)
Theorem visitProject_interfaces_then_classes
    (project : ProjectReflection.t TypeRef) :
  (forall entries,
     visitProject project = Ok entries <->
     exists interfaces classes,
       entries = interfaces ++ classes
       /\ visitedInOrder visitInterface
            (ProjectReflection.getReflectionsByKind project
               ReflectionKind.Interface)
            interfaces
       /\ visitedInOrder visitClass
            (ProjectReflection.getReflectionsByKind project
               ReflectionKind.Class)
            classes
       /\ Forall
            (fun entry =>
               ITsDocBase.kind (ITsInterface.base entry) = Kind.Interface)
            interfaces
       /\ Forall
            (fun entry => ITsDocBase.kind (ITsInterface.base entry) = Kind.Class)
            classes)
  /\ (ProjectReflection.reflections project = [] ->
      visitProject project = Ok []).
Proof.
  split.
  - intros entries. rewrite visitProject_Ok. split.
    + intros (interfaces & classes & -> & Hi & Hc).
      exists interfaces, classes. repeat split; try apply Hi; try apply Hc.
      * eapply Forall2_Ok_Forall; [apply visitInterface_kind | apply Hi].
      * eapply Forall2_Ok_Forall; [apply visitClass_kind | apply Hc].
    + intros (interfaces & classes & -> & Hi & Hc & _).
      exists interfaces, classes; auto.
  - intros Hempty. unfold visitProject, ProjectReflection.getReflectionsByKind.
    rewrite Hempty; reflexivity.
Qed.

End Methods.

(** *** Two visitors with the same renderer and the same option *)

Section SameCollaborators.
Variables this1 this2 : Visitor Block.
Hypothesis sameRenderer :
  forall text, renderBlock (compiler this1) text = renderBlock (compiler this2) text.
Hypothesis sameOption :
  isTrue (includeNonExported (options this1))
  = isTrue (includeNonExported (options this2)).

Lemma renderComment_ext comment :
  renderComment this1 comment = renderComment this2 comment.
Proof.
  unfold renderComment. destruct comment as [c|]; [|reflexivity].
  rewrite sameRenderer; reflexivity.
Qed.

Lemma makeDocEntry_ext ref kind :
  makeDocEntry this1 ref kind
  = makeDocEntry this2 ref kind.
Proof.
  unfold makeDocEntry. rewrite renderComment_ext; reflexivity.
Qed.

Lemma visitParameter_ext param :
  visitParameter this1 param
  = visitParameter this2 param.
Proof.
  unfold visitParameter. rewrite makeDocEntry_ext; reflexivity.
Qed.

Lemma visitSignature_ext sig :
  visitSignature this1 sig
  = visitSignature this2 sig.
Proof.
  unfold visitSignature. rewrite makeDocEntry_ext. f_equal.
  apply map_ext, visitParameter_ext.
Qed.

Lemma visitMethod_ext def :
  visitMethod this1 def
  = visitMethod this2 def.
Proof.
  unfold visitMethod. rewrite makeDocEntry_ext.
  destruct (DeclarationReflection.signatures def) as [signatures|];
    [|reflexivity].
  do 2 f_equal. apply map_ext, visitSignature_ext.
Qed.

Lemma visitProperty_ext def :
  visitProperty this1 def
  = visitProperty this2 def.
Proof.
  unfold visitProperty. rewrite makeDocEntry_ext; reflexivity.
Qed.

Lemma filterReflection_ext ref :
  filterReflection this1 ref = filterReflection this2 ref.
Proof.
  unfold filterReflection. rewrite sameOption; reflexivity.
Qed.

Lemma visitChildren_ext {R T} `{Reflects R} (visitor1 visitor2 : R -> result T)
    (children : list R) :
  (forall def, visitor1 def = visitor2 def) ->
  visitChildren this1 children visitor1 = visitChildren this2 children visitor2.
Proof.
  intros Hv. unfold visitChildren.
  rewrite (filterM_ext _ (fun def => filterReflection this2 (asReflection def)))
    by (intros def; apply filterReflection_ext).
  destruct (filterM _ children) as [passed|e]; [|reflexivity].
  simpl. apply mapM_ext, Hv.
Qed.

Lemma visitInterface_ext def :
  visitInterface this1 def
  = visitInterface this2 def.
Proof.
  unfold visitInterface. rewrite makeDocEntry_ext.
  rewrite (visitChildren_ext _ _ _ visitMethod_ext).
  destruct (visitChildren this2 _ _) as [methods|e]; [|reflexivity]. simpl.
  rewrite (visitChildren_ext _ (fun def =>
             Ok (visitProperty this2 def)))
    by (intros child; rewrite visitProperty_ext; reflexivity).
  reflexivity.
Qed.

End SameCollaborators.

Lemma visitChildren_skip {R T} `{Reflects R} (this : Visitor Block)
    (visitor : R -> result T) (before after : list R) (child : R) :
  filterReflection this (asReflection child) = Ok false ->
  visitChildren this (before ++ child :: after) visitor
  = visitChildren this (before ++ after) visitor.
Proof.
  intros Hchild. unfold visitChildren.
  rewrite (filterM_skip
             (fun def => filterReflection this (asReflection def)) before after
             child Hchild).
  reflexivity.
Qed.

Lemma visitChildren_skip_member {T} (this : Visitor Block) base kind
    (visitor : DeclarationReflection.t TypeRef -> result T)
    (before after : list (DeclarationReflection.t TypeRef)) child :
  filterReflection this (asReflection child) = Ok false ->
  visitChildren this
    (ContainerReflection.getChildrenByKind
       (containerOf base (before ++ child :: after)) kind) visitor
  = visitChildren this
      (ContainerReflection.getChildrenByKind
         (containerOf base (before ++ after)) kind) visitor.
Proof.
  intros Hchild. unfold ContainerReflection.getChildrenByKind, containerOf.
  cbn [ContainerReflection.children]. rewrite !filter_app. cbn [filter].
  destruct (ReflectionKind.eqb _ kind); [|reflexivity].
  apply visitChildren_skip, Hchild.
Qed.

Lemma Forall2_In_l {A B} (R : A -> B -> Prop) l out x :
  Forall2 R l out -> In x l -> exists y, In y out /\ R x y.
Proof.
  induction 1 as [|a b l out Hab _ IH]; intros Hin; [destruct Hin|].
  destruct Hin as [<- | Hin].
  - exists b; split; [left; reflexivity | exact Hab].
  - destruct (IH Hin) as [y [Hy HR]]. exists y; split; [right|]; assumption.
Qed.

Lemma visitChildren_member {T} (this : Visitor Block) base kind
    (visitor : DeclarationReflection.t TypeRef -> result T)
    (before after : list (DeclarationReflection.t TypeRef)) child out :
  Reflection.kind (asReflection child) = kind ->
  filterReflection this (asReflection child) = Ok true ->
  visitChildren this
    (ContainerReflection.getChildrenByKind
       (containerOf base (before ++ child :: after)) kind) visitor = Ok out ->
  exists entry, In entry out /\ visitor child = Ok entry.
Proof.
  intros Hkind Hchild Hout. apply visitChildren_Ok in Hout as [_ Hout].
  eapply Forall2_In_l in Hout; [exact Hout|].
  apply filter_In. split.
  - unfold ContainerReflection.getChildrenByKind, containerOf.
    cbn [ContainerReflection.children]. apply filter_In. split.
    + apply in_elt.
    + apply ReflectionKind_eqb_eq, Hkind.
  - unfold kept. rewrite Hchild; reflexivity.
Qed.

(** C3: a child whose [isExported] flag is [false] is left out of the
    entry of its parent when [includeNonExported] is unset or [false]: the
    parent's entry is the one of the parent without that child.  With
    [includeNonExported] set to [true] the entry of a method child is among
    the parent's methods and the entry of a property child among its
    properties.  An unset option gives the same entries as [false]. *)
Theorem nonExported_members_filtered (compiler : ICompiler Block)
    (base : Reflection.t)
    (before after : list (DeclarationReflection.t TypeRef))
    (child : DeclarationReflection.t TypeRef) (flags : ReflectionFlags.t) :
  Reflection.flags (asReflection child) = Some flags ->
  ReflectionFlags.isExported flags = Some false ->
  (forall option,
     option = None \/ option = Some false ->
     visitInterface (visitorWith compiler option)
       (containerOf base (before ++ child :: after))
     = visitInterface (visitorWith compiler option)
         (containerOf base (before ++ after)))
  /\ (forall entry,
        visitInterface (visitorWith compiler (Some true))
          (containerOf base (before ++ child :: after)) = Ok entry ->
        (Reflection.kind (asReflection child) = ReflectionKind.Method ->
         exists method,
           visitMethod (visitorWith compiler (Some true)) child = Ok method
           /\ In method (ITsInterface.methods entry))
        /\ (Reflection.kind (asReflection child) = ReflectionKind.Property ->
            In (visitProperty (visitorWith compiler (Some true)) child)
              (ITsInterface.properties entry)))
  /\ (forall def,
        visitInterface (visitorWith compiler None) def
        = visitInterface (visitorWith compiler (Some false)) def).
Proof.
  intros Hflags Hexported. split; [|split].
  - intros option Hoption.
    assert (Hskip : filterReflection (visitorWith compiler option)
                      (asReflection child) = Ok false).
    { unfold filterReflection. rewrite Hflags, Hexported.
      destruct Hoption as [-> | ->]; reflexivity. }
    unfold visitInterface.
    rewrite !(visitChildren_skip_member _ base _ _ before after child Hskip).
    reflexivity.
  - intros entry Hentry.
    assert (Hkeep : filterReflection (visitorWith compiler (Some true))
                      (asReflection child) = Ok true).
    { unfold filterReflection. rewrite Hflags, Hexported; reflexivity. }
    unfold visitInterface in Hentry.
    apply bind_Ok in Hentry as [methods [Hmethods Hentry]].
    apply bind_Ok in Hentry as [properties [Hproperties Hentry]].
    injection Hentry as <-. cbn [ITsInterface.methods ITsInterface.properties].
    split; intros Hkind.
    + destruct (visitChildren_member _ base _ before after child
                  Hkind Hkeep Hmethods) as [method [Hin Hm]].
      exists method; auto.
    + destruct (visitChildren_member _ base _ before after child
                  Hkind Hkeep Hproperties) as [property [Hin Hp]].
      injection Hp as <-. exact Hin.
  - intros def. apply visitInterface_ext; reflexivity.
Qed.

(** *** Further properties of the helpers *)

Lemma find_first_Some {A} (p : A -> bool) (l : list A) (x : A) :
  find_first p l = Some x ->
  exists before after,
    l = before ++ x :: after
    /\ Forall (fun y => p y = false) before /\ p x = true.
Proof.
  induction l as [|y l IH]; simpl; [discriminate|].
  destruct (p y) eqn:Hy.
  - intros H; injection H as <-. exists [], l; auto.
  - intros H. destruct (IH H) as (before & after & -> & Hb & Hx).
    exists (y :: before), after; auto.
Qed.

Lemma find_first_None {A} (p : A -> bool) (l : list A) :
  find_first p l = None -> Forall (fun y => p y = false) l.
Proof.
  induction l as [|y l IH]; simpl; [constructor|].
  destruct (p y) eqn:Hy; [discriminate | auto].
Qed.

Lemma getCommentTag_Some (name : jsstring) (comment : option Comment.t) tag :
  getCommentTag comment name = Some tag -> firstTag name comment tag.
Proof.
  unfold getCommentTag, firstTag.
  destruct comment as [c|]; [|discriminate].
  destruct (Comment.tags c) as [tags|] eqn:Htags; [|discriminate].
  intros H. apply find_first_Some in H as (before & after & -> & Hb & Hx).
  exists c, before, after. repeat split; auto.
  - eapply Forall_impl; [|exact Hb]. intros other; apply jsstring_eqb_neq.
  - apply jsstring_eqb_eq, Hx.
Qed.

Lemma getCommentTag_None (name : jsstring) (comment : option Comment.t) :
  getCommentTag comment name = None -> ~ hasTag name comment.
Proof.
  unfold getCommentTag. intros Hnone (c & tags & -> & Htags & Hex).
  rewrite Htags in Hnone. apply find_first_None in Hnone.
  apply Exists_exists in Hex as [tag [Hin Hname]].
  rewrite Forall_forall in Hnone. specialize (Hnone tag Hin).
  apply jsstring_eqb_neq in Hnone. contradiction.
Qed.

(** X1: [getCommentTag] returns the first tag of the comment that has the
    requested name, and is absent exactly when the comment is missing, has
    no tag list, or has no tag of that name. *)
Theorem getCommentTag_finds_first_tag (comment : option Comment.t)
    (name : jsstring) :
  (forall tag,
     getCommentTag comment name = Some tag <-> firstTag name comment tag)
  /\ (getCommentTag comment name = None <-> ~ hasTag name comment).
Proof.
  split; [intros tag|]; split.
  - apply getCommentTag_Some.
  - apply getCommentTag_first.
  - apply getCommentTag_None.
  - apply getCommentTag_absent.
Qed.

Lemma trimStart_blank (s : jsstring) : blank s -> trimStart s = [].
Proof.
  unfold blank. induction s as [|c s IH]; simpl; [reflexivity|].
  intros H. apply andb_true_iff in H as [Hc Hs]. rewrite Hc; auto.
Qed.

Lemma trimStart_nil (s : jsstring) : trimStart s = [] -> blank s.
Proof.
  intros H. destruct (trimStart_split s) as [b [Hs Hb]].
  rewrite H, app_nil_r in Hs. subst b. exact Hb.
Qed.

Lemma blank_rev (s : jsstring) : blank (rev s) <-> blank s.
Proof.
  unfold blank. rewrite !forallb_forall.
  split; intros H c Hc; apply H; [apply -> in_rev | apply in_rev]; exact Hc.
Qed.

Lemma trim_nil (s : jsstring) : trim s = [] <-> blank s.
Proof.
  unfold trim, trimEnd. split.
  - intros H. apply (f_equal (@rev N)) in H. rewrite rev_involutive in H.
    simpl in H. apply trimStart_nil in H. apply (proj1 (blank_rev _)) in H.
    destruct (trimStart_split s) as [b [Hs Hb]].
    unfold blank in *. rewrite Hs, forallb_app, Hb, H; reflexivity.
  - intros H. rewrite (trimStart_blank H); reflexivity.
Qed.

Lemma trimStart_fixed (s : jsstring) c rest :
  s = c :: rest -> isWhiteSpace c = false -> trimStart s = s.
Proof.
  intros -> Hc; simpl; rewrite Hc; reflexivity.
Qed.

Lemma trimStart_idempotent (s : jsstring) :
  trimStart (trimStart s) = trimStart s.
Proof.
  destruct (trimStart s) as [|c rest] eqn:Hs; [reflexivity|].
  eapply trimStart_fixed; [reflexivity | eapply trimStart_head, Hs].
Qed.

Lemma trim_idempotent (s : jsstring) : trim (trim s) = trim s.
Proof.
  unfold trim, trimEnd.
  destruct (trimStart_split (rev (trimStart s))) as [b [Hrev _]].
  set (u := trimStart (rev (trimStart s))) in *.
  assert (Hfront : trimStart (rev u) = rev u).
  { destruct (rev u) as [|c rest] eqn:Hu; [reflexivity|].
    eapply trimStart_fixed; [reflexivity|].
    apply (f_equal (@rev N)) in Hrev.
    rewrite rev_involutive, rev_app_distr, Hu in Hrev.
    eapply trimStart_head. exact Hrev. }
  rewrite Hfront, rev_involutive. unfold u. rewrite trimStart_idempotent.
  reflexivity.
Qed.

(** X2: [getIsDeprecated] never yields [false] and never the empty string: a
    reason it yields is non-empty and carries no white space at either end,
    and it yields [true] exactly when the first [@deprecated] tag has a text
    of white space only. *)
Theorem getIsDeprecated_true_or_reason (ref : Reflection.t) :
  getIsDeprecated ref <> Some (JsBool false)
  /\ (forall reason,
        getIsDeprecated ref = Some (JsString reason) ->
        reason <> [] /\ trim reason = reason)
  /\ (getIsDeprecated ref = Some (JsBool true) <->
      exists tag,
        firstTag (str "deprecated") (Reflection.comment ref) tag
        /\ blank (CommentTag.text tag)).
Proof.
  unfold getIsDeprecated.
  destruct (getCommentTag (Reflection.comment ref) (str "deprecated"))
    as [tag|] eqn:Htag.
  - apply getCommentTag_Some in Htag.
    destruct (jsstring_eqb (trim (CommentTag.text tag)) []) eqn:Hempty.
    + apply jsstring_eqb_eq in Hempty. repeat split; try discriminate.
      exists tag; split; [exact Htag | apply trim_nil, Hempty].
    + apply jsstring_eqb_neq in Hempty. repeat split; try discriminate.
      * injection H as <-; exact Hempty.
      * injection H as <-; apply trim_idempotent.
      * intros (tag' & Htag' & Hblank).
        apply getCommentTag_first in Htag, Htag'.
        rewrite Htag in Htag'. injection Htag' as <-.
        apply trim_nil in Hblank. contradiction.
  - apply getCommentTag_None in Htag. repeat split; try discriminate.
    intros (tag & (c & before & after & Hc & Htags & _ & Hname) & _).
    exfalso. apply Htag. exists c, (before ++ tag :: after).
    repeat split; auto. apply Exists_exists.
    exists tag; split; [apply in_elt | exact Hname].
Qed.

(** X3: without an explicit default value, the derived default value
    carries no white space at either end, and a [@default] tag whose text is
    white space only gives the empty string, which is present, not absent. *)
Theorem getDefaultValue_from_tag_is_trimmed {R} `{DefaultValueContainer R}
    (ref : R) :
  explicitDefaultValue ref = None ->
  (forall value, getDefaultValue ref = Some value -> trim value = value)
  /\ (forall tag,
        firstTag (str "default") (Reflection.comment (asReflection ref)) tag ->
        blank (CommentTag.text tag) -> getDefaultValue ref = Some []).
Proof.
  intros Hnone. unfold getDefaultValue. rewrite Hnone. split.
  - intros value.
    destruct (getCommentTag _ _) as [tag|]; [|discriminate].
    intros Hv; injection Hv as <-. apply trim_idempotent.
  - intros tag Htag Hblank.
    rewrite (getCommentTag_first Htag). f_equal. apply trim_nil, Hblank.
Qed.

Lemma renderComment_spec (this : Visitor Block) (c : Comment.t) :
  renderComment this (Some c)
  = Some (renderBlock (compiler this) (commentText c)).
Proof.
  unfold renderComment, commentText, spec_blankLine. do 2 f_equal.
  destruct (Comment.tags c) as [tags|]; [rewrite tagLines_filter_map|];
    destruct (Comment.shortText c) as [[|a s]|];
    destruct (Comment.text c) as [[|b t]|];
    rewrite <- ?app_assoc; cbn [app]; rewrite ?app_nil_r; reflexivity.
Qed.

(** X4: a tag list that is empty or holds only [@default] and [@deprecated]
    tags still ends the text with a blank line: the text is the one of the
    comment without a tag list, followed by two line feeds. *)
Theorem renderComment_hidden_tags_leave_blank_line (this : Visitor Block)
    (comment : Comment.t) (tags : list CommentTag.t) :
  Comment.tags comment = Some tags ->
  onlyHiddenTags tags ->
  renderComment this (Some comment)
  = Some (renderBlock (compiler this)
            (spec_commentText (withoutTags comment) ++ [LF; LF])).
Proof.
  intros Htags Hhidden. rewrite renderComment_spec. do 2 f_equal.
  unfold commentText, spec_commentText, withoutTags, spec_blankLine; simpl.
  rewrite Htags.
  assert (Hlines : spec_tagLines tags = []).
  { clear Htags. induction Hhidden as [|tag rest Htag _ IH]; [reflexivity|].
    cbn [spec_tagLines].
    destruct Htag as [Htag | Htag]; apply jsstring_eqb_eq in Htag;
      rewrite Htag, ?orb_true_r; cbn [orb]; exact IH. }
  rewrite Hlines. simpl. rewrite !app_nil_r, app_assoc. reflexivity.
Qed.

(** X5: the file name of an entry is present exactly when the reflection has
    a first source location with a file; it is then the file's full name
    made relative to the working directory, or the empty string when that
    full name is empty.  Later source locations are not read. *)
Theorem getFileName_uses_first_source (ref : Reflection.t) (name : jsstring) :
  getFileName ref = Some name <->
  exists source rest file,
    Reflection.sources ref = Some (source :: rest)
    /\ SourceReference.file source = Some file
    /\ name = match SourceFile.fullFileName file with
              | [] => []
              | path => relative cwd path
              end.
Proof.
  unfold getFileName. split.
  - destruct (Reflection.sources ref) as [[|source rest]|];
      simpl; try discriminate.
    destruct (SourceReference.file source) as [file|] eqn:Hfile;
      [|discriminate].
    intros H. exists source, rest, file. repeat split; auto.
    destruct (SourceFile.fullFileName file); injection H as <-; reflexivity.
  - intros (source & rest & file & -> & Hfile & ->). simpl. rewrite Hfile.
    destruct (SourceFile.fullFileName file); reflexivity.
Qed.

(** *** Further properties of the traversal *)

Section Traversal.
Variable this : Visitor Block.

Lemma visitInterface_Ok (def : ContainerReflection.t TypeRef) entry :
  visitInterface this def = Ok entry <->
  exists methods properties,
    visitedInOrder this (visitMethod this)
      (ContainerReflection.getChildrenByKind def ReflectionKind.Method) methods
    /\ visitedInOrder this (fun child => Ok (visitProperty this child))
         (ContainerReflection.getChildrenByKind def ReflectionKind.Property)
         properties
    /\ entry = {| ITsInterface.base :=
                    makeDocEntry this (asReflection def) Kind.Interface;
                  ITsInterface.methods := methods;
                  ITsInterface.properties := properties |}.
Proof.
  unfold visitInterface. rewrite bind_Ok. split.
  - intros [methods [Hm H]]. apply bind_Ok in H as [properties [Hp H]].
    injection H as <-. exists methods, properties.
    split; [apply visitChildren_Ok, Hm|].
    split; [apply visitChildren_Ok, Hp | reflexivity].
  - intros (methods & properties & Hm & Hp & ->).
    exists methods. split; [apply visitChildren_Ok, Hm|].
    apply visitChildren_Ok in Hp. rewrite Hp; reflexivity.
Qed.

Lemma visitClass_Ok (def : ContainerReflection.t TypeRef) class :
  visitClass this def = Ok class <->
  exists entry,
    visitInterface this def = Ok entry
    /\ class = {| ITsInterface.base :=
                    ITsDocBase.withKind (ITsInterface.base entry) Kind.Class;
                  ITsInterface.methods := ITsInterface.methods entry;
                  ITsInterface.properties := ITsInterface.properties entry |}.
Proof.
  unfold visitClass. rewrite bind_Ok. split.
  - intros [entry [He H]]. injection H as <-. eauto.
  - intros (entry & He & ->). eauto.
Qed.

Lemma visitMethod_Ok (def : DeclarationReflection.t TypeRef) method :
  visitMethod this def = Ok method <->
  exists signatures,
    DeclarationReflection.signatures def = Some signatures
    /\ method = {| ITsMethod.base :=
                     makeDocEntry this (asReflection def) Kind.Method;
                   ITsMethod.signatures :=
                     map (visitSignature this) signatures |}.
Proof.
  unfold visitMethod.
  destruct (DeclarationReflection.signatures def) as [signatures|]; split.
  - intros H; injection H as <-. eauto.
  - intros (signatures' & H & ->). injection H as <-. reflexivity.
  - discriminate.
  - intros (signatures' & H & _). discriminate.
Qed.

Lemma Forall2_In_Forall {A B} (R : A -> B -> Prop) (P : B -> Prop) l out :
  (forall x y, In x l -> R x y -> P y) -> Forall2 R l out -> Forall P out.
Proof.
  intros HP H. induction H as [|x y l out Hxy _ IH]; constructor.
  - apply (HP x y); [left; reflexivity | exact Hxy].
  - apply IH. intros a b Ha. apply HP. right; exact Ha.
Qed.

Lemma visitedInOrder_Forall {R T} `{Reflects R} (visitor : R -> result T)
    (P : T -> Prop) defs out :
  (forall def entry,
     kept this (asReflection def) = true -> visitor def = Ok entry -> P entry) ->
  visitedInOrder this visitor defs out -> Forall P out.
Proof.
  intros HP [_ Hout]. eapply Forall2_In_Forall; [|exact Hout].
  intros def entry Hin. apply filter_In in Hin as [_ Hkept]. apply HP, Hkept.
Qed.

Lemma Forall2_Ok_map {A B} (f : A -> B) l out :
  Forall2 (fun x y => Ok (f x) = Ok y) l out -> out = map f l.
Proof.
  induction 1 as [|x y l out Hxy _ IH]; [reflexivity|].
  injection Hxy as <-. simpl. rewrite IH; reflexivity.
Qed.

Lemma isTrue_Some_true (v : option bool) : isTrue v = true <-> v = Some true.
Proof.
  destruct v as [[|]|]; simpl; split; congruence.
Qed.

Lemma kept_passedFilter (ref : Reflection.t) :
  kept this ref = true -> passedFilter this (getFlags ref).
Proof.
  unfold kept, filterReflection, passedFilter, getFlags.
  destruct (Reflection.flags ref) as [flags|]; [|discriminate].
  intros H. apply orb_true_iff in H. rewrite !isTrue_Some_true in H.
  eexists; split; [reflexivity | exact H].
Qed.

Lemma visitInterface_passedFilter (def : ContainerReflection.t TypeRef) entry :
  kept this (asReflection def) = true ->
  visitInterface this def = Ok entry ->
  passedFilter this (ITsDocBase.flags (ITsInterface.base entry))
  /\ Forall
       (fun method =>
          passedFilter this (ITsDocBase.flags (ITsMethod.base method)))
       (ITsInterface.methods entry)
  /\ Forall
       (fun property =>
          passedFilter this (ITsDocBase.flags (ITsProperty.base property)))
       (ITsInterface.properties entry).
Proof.
  intros Hkept Hentry.
  apply visitInterface_Ok in Hentry as (methods & properties & Hm & Hp & ->).
  cbn [ITsInterface.base ITsInterface.methods ITsInterface.properties].
  split; [apply kept_passedFilter, Hkept|]. split.
  - apply (fun HP => visitedInOrder_Forall _ HP Hm).
    intros child method Hchild Hmethod.
    apply visitMethod_Ok in Hmethod as (signatures & _ & ->).
    apply kept_passedFilter, Hchild.
  - apply (fun HP => visitedInOrder_Forall _ HP Hp).
    intros child property Hchild Hproperty. injection Hproperty as <-.
    apply kept_passedFilter, Hchild.
Qed.

(** X6: every interface and class entry that [visitProject] returns, and
    every method and property entry in it, has its flags present, with
    [isExported] being [true] unless [includeNonExported] is [true]. *)
Theorem visitProject_entries_passed_filter
    (project : ProjectReflection.t TypeRef) entries :
  visitProject this project = Ok entries ->
  Forall
    (fun entry =>
       passedFilter this (ITsDocBase.flags (ITsInterface.base entry))
       /\ Forall
            (fun method =>
               passedFilter this (ITsDocBase.flags (ITsMethod.base method)))
            (ITsInterface.methods entry)
       /\ Forall
            (fun property =>
               passedFilter this
                 (ITsDocBase.flags (ITsProperty.base property)))
            (ITsInterface.properties entry))
    entries.
Proof.
  intros H. apply visitProject_Ok in H as (interfaces & classes & -> & Hi & Hc).
  apply Forall_app. split.
  - apply (fun HP => visitedInOrder_Forall _ HP Hi).
    intros def entry. apply visitInterface_passedFilter.
  - apply (fun HP => visitedInOrder_Forall _ HP Hc).
    intros def class Hkept Hclass.
    apply visitClass_Ok in Hclass as (entry & Hentry & ->).
    exact (visitInterface_passedFilter def Hkept Hentry).
Qed.

Lemma visitSignature_kinded (sig : SignatureReflection.t TypeRef) :
  signatureKinded (visitSignature this sig).
Proof.
  split; [reflexivity|]. apply Forall_forall. intros param Hin.
  cbn [visitSignature ITsMethodSignature.parameters] in Hin.
  apply in_map_iff in Hin as [source [<- _]]. reflexivity.
Qed.

Lemma visitInterface_membersKinded (def : ContainerReflection.t TypeRef) entry :
  visitInterface this def = Ok entry -> membersKinded entry.
Proof.
  intros Hentry.
  apply visitInterface_Ok in Hentry as (methods & properties & Hm & Hp & ->).
  split; cbn [ITsInterface.methods ITsInterface.properties].
  - apply (fun HP => visitedInOrder_Forall _ HP Hm).
    intros child method _ Hmethod.
    apply visitMethod_Ok in Hmethod as (signatures & _ & ->).
    split; [reflexivity|]. apply Forall_forall. intros sig Hin.
    cbn [ITsMethod.signatures] in Hin.
    apply in_map_iff in Hin as [source [<- _]]. apply visitSignature_kinded.
  - apply (fun HP => visitedInOrder_Forall _ HP Hp).
    intros child property _ Hproperty. injection Hproperty as <-. reflexivity.
Qed.

(** X7: in every entry that [visitProject] returns the kinds follow the
    nesting: the entry is an [Interface] or a [Class], its methods are
    [Method]s whose signatures are [Signature]s whose parameters are
    [Parameter]s, and its properties are [Property]s. *)
Theorem visitProject_kinds_follow_nesting
    (project : ProjectReflection.t TypeRef) entries :
  visitProject this project = Ok entries ->
  Forall
    (fun entry =>
       (ITsDocBase.kind (ITsInterface.base entry) = Kind.Interface
        \/ ITsDocBase.kind (ITsInterface.base entry) = Kind.Class)
       /\ membersKinded entry)
    entries.
Proof.
  intros H. apply visitProject_Ok in H as (interfaces & classes & -> & Hi & Hc).
  apply Forall_app. split.
  - apply (fun HP => visitedInOrder_Forall _ HP Hi).
    intros def entry _ Hentry. split.
    + left. eapply visitInterface_kind, Hentry.
    + eapply visitInterface_membersKinded, Hentry.
  - apply (fun HP => visitedInOrder_Forall _ HP Hc).
    intros def class _ Hclass. split.
    + right. eapply visitClass_kind, Hclass.
    + apply visitClass_Ok in Hclass as (entry & Hentry & ->).
      exact (visitInterface_membersKinded def Hentry).
Qed.

(** X8: the entry of an interface mirrors the reflection: it has the
    reflection's name, its methods are the kept method children in order,
    each with the child's name and one signature entry per signature of the
    child, named alike, and its properties are the kept property children in
    order, named alike. *)
Theorem visitInterface_mirrors_members
    (def : ContainerReflection.t TypeRef) entry :
  visitInterface this def = Ok entry ->
  ITsDocBase.name (ITsInterface.base entry) = Reflection.name (asReflection def)
  /\ Forall2
       (fun child method =>
          ITsDocBase.name (ITsMethod.base method)
          = Reflection.name (asReflection child)
          /\ exists signatures,
               DeclarationReflection.signatures child = Some signatures
               /\ map (fun sig => ITsDocBase.name (ITsMethodSignature.base sig))
                    (ITsMethod.signatures method)
                  = map (fun sig => Reflection.name (asReflection sig))
                      signatures)
       (filter (fun child => kept this (asReflection child))
          (ContainerReflection.getChildrenByKind def ReflectionKind.Method))
       (ITsInterface.methods entry)
  /\ map (fun property => ITsDocBase.name (ITsProperty.base property))
       (ITsInterface.properties entry)
     = map (fun child => Reflection.name (asReflection child))
         (filter (fun child => kept this (asReflection child))
            (ContainerReflection.getChildrenByKind def ReflectionKind.Property)).
Proof.
  intros Hentry.
  apply visitInterface_Ok in Hentry
    as (methods & properties & [_ Hm] & [_ Hp] & ->).
  cbn [ITsInterface.base ITsInterface.methods ITsInterface.properties].
  split; [reflexivity|]. split.
  - eapply Forall2_impl; [|exact Hm]. intros child method Hmethod.
    apply visitMethod_Ok in Hmethod as (signatures & Hs & ->).
    split; [reflexivity|]. exists signatures. split; [exact Hs|].
    cbn [ITsMethod.signatures]. rewrite map_map. reflexivity.
  - apply Forall2_Ok_map in Hp. rewrite Hp, map_map. reflexivity.
Qed.

Lemma filter_all {A} (keep : A -> bool) (l : list A) :
  Forall (fun x => keep x = true) l -> filter keep l = l.
Proof.
  induction 1 as [|x l Hx _ IH]; simpl; [|rewrite Hx, IH]; reflexivity.
Qed.

(** X9: with [includeNonExported] set to [true], [visitChildren] drops no
    child: when it returns, its result holds one entry per child, in
    order. *)
Theorem visitChildren_keeps_all_when_option_set {R T} `{Reflects R}
    (visitor : R -> result T) (children : list R) (out : list T) :
  includeNonExported (options this) = Some true ->
  visitChildren this children visitor = Ok out ->
  Forall2 (fun def entry => visitor def = Ok entry) children out.
Proof.
  intros Hoption Hout. apply visitChildren_Ok in Hout as [Hflags Hout].
  rewrite filter_all in Hout; [exact Hout|].
  eapply Forall_impl; [|exact Hflags]. intros def Hdef.
  unfold kept, filterReflection. unfold hasFlags in Hdef.
  destruct (Reflection.flags (asReflection def)); [|congruence].
  rewrite Hoption. apply orb_true_r.
Qed.

Lemma NoDup_map_S (positions : list nat) :
  NoDup positions -> NoDup (map S positions).
Proof.
  induction 1 as [|i l Hi _ IH]; simpl; constructor; [|exact IH].
  intros Hin. apply in_map_iff in Hin as [j [Hj Hin]].
  injection Hj as ->. contradiction.
Qed.

Lemma filter_positions {A} (keep : A -> bool) (l : list A) :
  exists positions,
    NoDup positions
    /\ Forall2
         (fun position x => nth_error l position = Some x /\ keep x = true)
         positions (filter keep l).
Proof.
  induction l as [|a l (positions & Hnodup & Hall)].
  - exists []. split; constructor.
  - assert (Hshift :
              Forall2
                (fun position x =>
                   nth_error (a :: l) position = Some x /\ keep x = true)
                (map S positions) (filter keep l)).
    { clear Hnodup. induction Hall; simpl; constructor; assumption. }
    simpl. destruct (keep a) eqn:Ha.
    + exists (0 :: map S positions). split.
      * constructor; [|apply NoDup_map_S, Hnodup].
        intros Hin. apply in_map_iff in Hin as [j [Hj _]]. discriminate.
      * constructor; [auto | exact Hshift].
    + exists (map S positions). split; [apply NoDup_map_S, Hnodup | exact Hshift].
Qed.

Lemma filter_filter_andb {A} (f g : A -> bool) (l : list A) :
  filter g (filter f l) = filter (fun x => f x && g x) l.
Proof.
  induction l as [|a l IH]; simpl; [reflexivity|].
  destruct (f a); simpl; [destruct (g a)|]; rewrite IH; reflexivity.
Qed.

Lemma Forall2_chain {A B C} (R : A -> B -> Prop) (Q : B -> C -> Prop) l m n :
  Forall2 R l m -> Forall2 Q m n ->
  Forall2 (fun a c => exists b, R a b /\ Q b c) l n.
Proof.
  intros HR. revert n. induction HR as [|a b l m Hab _ IH]; intros n HQ;
    inversion HQ; subst; constructor; eauto.
Qed.

Lemma visitedInOrder_positions (kind : ReflectionKind.t)
    (visit : ContainerReflection.t TypeRef -> result (ITsInterface.t Block))
    (project : ProjectReflection.t TypeRef) out :
  visitedInOrder this visit
    (ProjectReflection.getReflectionsByKind project kind) out ->
  exists positions,
    NoDup positions
    /\ Forall2
         (fun position entry =>
            exists def,
              nth_error (ProjectReflection.reflections project) position
              = Some def
              /\ Reflection.kind (asReflection def) = kind
              /\ visit def = Ok entry)
         positions out.
Proof.
  intros [_ Hout]. unfold ProjectReflection.getReflectionsByKind in Hout.
  rewrite filter_filter_andb in Hout.
  destruct (filter_positions
              (fun r : ContainerReflection.t TypeRef =>
                 ReflectionKind.eqb
                   (Reflection.kind (ContainerReflection.base r)) kind
                 && kept this (asReflection r))
              (ProjectReflection.reflections project))
    as (positions & Hnodup & Hpositions).
  exists positions. split; [exact Hnodup|].
  eapply Forall2_impl; [|exact (Forall2_chain Hpositions Hout)].
  intros position entry (def & [Hnth Hkeep] & Hvisit).
  apply andb_true_iff in Hkeep as [Hkind _].
  apply ReflectionKind_eqb_eq in Hkind. eauto.
Qed.

(** X10: every entry [visitProject] returns is the entry of a reflection
    registered in the project, an interface visited as an interface or a
    class visited as a class, and the entries come from pairwise distinct
    positions of the registry: no reflection is emitted twice and no entry
    is invented, so there are at most as many entries as reflections. *)
Theorem visitProject_entries_from_distinct_reflections
    (project : ProjectReflection.t TypeRef) entries :
  visitProject this project = Ok entries ->
  (exists positions,
     NoDup positions
     /\ Forall2
          (fun position entry =>
             exists def,
               nth_error (ProjectReflection.reflections project) position
               = Some def
               /\ (Reflection.kind (asReflection def) = ReflectionKind.Interface
                   /\ visitInterface this def = Ok entry
                   \/ Reflection.kind (asReflection def) = ReflectionKind.Class
                      /\ visitClass this def = Ok entry))
          positions entries)
  /\ List.length entries <= List.length (ProjectReflection.reflections project).
Proof.
  intros H. apply visitProject_Ok in H as (interfaces & classes & -> & Hi & Hc).
  apply visitedInOrder_positions in Hi as (pI & HnoI & HI).
  apply visitedInOrder_positions in Hc as (pC & HnoC & HC).
  assert (Hdistinct : NoDup (pI ++ pC)).
  { apply NoDup_app; [exact HnoI | exact HnoC |].
    intros position HinI HinC.
    destruct (Forall2_In_l position HI HinI) as (entry & _ & def & Hnth & Hk & _).
    destruct (Forall2_In_l position HC HinC)
      as (entry' & _ & def' & Hnth' & Hk' & _).
    rewrite Hnth in Hnth'. injection Hnth' as <-. congruence. }
  assert (Hall :
            Forall2
              (fun position entry =>
                 exists def,
                   nth_error (ProjectReflection.reflections project) position
                   = Some def
                   /\ (Reflection.kind (asReflection def)
                       = ReflectionKind.Interface
                       /\ visitInterface this def = Ok entry
                       \/ Reflection.kind (asReflection def)
                          = ReflectionKind.Class
                          /\ visitClass this def = Ok entry))
              (pI ++ pC) (interfaces ++ classes)).
  { apply Forall2_app; (eapply Forall2_impl; [|eassumption]);
      intros position entry (def & Hnth & Hk & Hv); exists def; auto. }
  split; [exists (pI ++ pC); auto|].
  rewrite <- (Forall2_length Hall).
  assert (Hincl : incl (pI ++ pC)
                    (seq 0 (List.length (ProjectReflection.reflections project)))).
  { intros position Hin.
    destruct (Forall2_In_l position Hall Hin) as (entry & _ & def & Hnth & _).
    apply in_seq. split; [apply Nat.le_0_l|]. simpl.
    apply nth_error_Some. congruence. }
  pose proof (NoDup_incl_length Hdistinct Hincl) as Hle.
  rewrite length_seq in Hle. exact Hle.
Qed.

Lemma filterM_Throw {A} (p : A -> result bool) (e : TypeError) (l : list A) :
  (forall x e', p x = Throw e' -> e' = e) ->
  Exists (fun x => exists e', p x = Throw e') l ->
  filterM p l = Throw e.
Proof.
  intros Hsame. induction l as [|x l IH]; intros Hex; [inversion Hex|].
  simpl. destruct (p x) as [b|e'] eqn:Hx; simpl.
  - inversion Hex as [? ? [e'' Hthrow]|? ? Hrest]; subst; [congruence|].
    rewrite (IH Hrest); reflexivity.
  - rewrite (Hsame x e' Hx); reflexivity.
Qed.

(** X11: when one child carries no flags, [visitChildren] throws the
    [TypeError] of reading [isExported] before any child is visited:
    whatever the visitor would do, wherever the child stands and whatever
    [includeNonExported] is.  So does [visitProject] when an interface of
    the registry carries no flags. *)
Theorem visitChildren_throws_on_missing_flags :
  (forall R T (H : Reflects R) (visitor : R -> result T) (children : list R),
     Exists (fun def => Reflection.flags (asReflection def) = None) children ->
     visitChildren this children visitor
     = Throw (CannotReadProperty "isExported"))
  /\ (forall project : ProjectReflection.t TypeRef,
        Exists
          (fun def =>
             Reflection.kind (asReflection def) = ReflectionKind.Interface
             /\ Reflection.flags (asReflection def) = None)
          (ProjectReflection.reflections project) ->
        visitProject this project = Throw (CannotReadProperty "isExported")).
Proof.
  assert (Hchildren :
            forall R T (H : Reflects R) (visitor : R -> result T) children,
              Exists (fun def => Reflection.flags (asReflection def) = None)
                children ->
              visitChildren this children visitor
              = Throw (CannotReadProperty "isExported")).
  { intros R T H visitor children Hex. unfold visitChildren.
    rewrite (@filterM_Throw _ _ (CannotReadProperty "isExported"));
      [reflexivity | |].
    - intros def e'. unfold filterReflection.
      destruct (Reflection.flags (asReflection def)); congruence.
    - eapply Exists_impl; [|exact Hex]. intros def Hnone.
      unfold filterReflection. rewrite Hnone. eauto. }
  split; [exact Hchildren|].
  intros project Hex. unfold visitProject.
  rewrite Hchildren; [reflexivity|].
  unfold ProjectReflection.getReflectionsByKind.
  apply Exists_exists in Hex as (def & Hin & Hkind & Hnone).
  apply Exists_exists. exists def. split; [|exact Hnone].
  apply filter_In. split; [exact Hin|].
  apply ReflectionKind_eqb_eq, Hkind.
Qed.

Lemma visitChildren_returns {R T} `{Reflects R} (visitor : R -> result T)
    (children : list R) :
  (exists out, visitChildren this children visitor = Ok out) <->
  Forall (fun def => hasFlags (asReflection def)) children
  /\ forall def,
       In def children -> kept this (asReflection def) = true ->
       exists entry, visitor def = Ok entry.
Proof.
  split.
  - intros [out Hout]. apply visitChildren_Ok in Hout as [Hflags Hout].
    split; [exact Hflags|]. intros def Hin Hkept.
    destruct (Forall2_In_l def Hout) as [entry [_ Hentry]]; [|eauto].
    apply filter_In; auto.
  - intros [Hflags Hvisit].
    destruct (@Forall2_total _ _ visitor
                (filter (fun def => kept this (asReflection def)) children))
      as [out Hout].
    + intros def Hin. apply filter_In in Hin as [Hin Hkept]. auto.
    + exists out. apply visitChildren_Ok. split; assumption.
Qed.

Lemma getChildrenByKind_In (def : ContainerReflection.t TypeRef) kind child :
  In child (ContainerReflection.getChildrenByKind def kind) <->
  exists children,
    ContainerReflection.children def = Some children
    /\ In child children /\ Reflection.kind (asReflection child) = kind.
Proof.
  unfold ContainerReflection.getChildrenByKind.
  rewrite filter_In, ReflectionKind_eqb_eq.
  destruct (ContainerReflection.children def) as [children|]; split.
  - intros [Hin Hkind]. eauto.
  - intros (children' & H & Hin & Hkind). injection H as <-. auto.
  - intros [[] _].
  - intros (children' & H & _). discriminate.
Qed.

Lemma visitInterface_returns (def : ContainerReflection.t TypeRef) :
  (exists entry, visitInterface this def = Ok entry) <->
  childrenVisitable this def.
Proof.
  unfold childrenVisitable. split.
  - intros [entry Hentry].
    apply visitInterface_Ok in Hentry as (methods & properties & Hm & Hp & _).
    apply visitChildren_Ok in Hm, Hp.
    pose proof (proj1 (visitChildren_returns _ _) (ex_intro _ _ Hm))
      as [Hmflags Hmvisit].
    pose proof (proj1 (visitChildren_returns _ _) (ex_intro _ _ Hp))
      as [Hpflags _].
    rewrite Forall_forall in Hmflags, Hpflags.
    intros children Hchildren. apply Forall_forall. intros child Hin.
    unfold memberVisitable.
    destruct (Reflection.kind (asReflection child)) eqn:Hkind; try exact I.
    + apply Hpflags, getChildrenByKind_In. eauto.
    + assert (Hmember : In child (ContainerReflection.getChildrenByKind def
                                    ReflectionKind.Method))
        by (apply getChildrenByKind_In; eauto).
      split; [apply Hmflags, Hmember|]. intros Hkept.
      destruct (Hmvisit child Hmember Hkept) as [method Hmethod].
      apply visitMethod_Ok in Hmethod as (signatures & Hs & _). congruence.
  - intros Hvisitable.
    assert (Hmember : forall kind child,
               In child (ContainerReflection.getChildrenByKind def kind) ->
               memberVisitable this child
               /\ Reflection.kind (asReflection child) = kind).
    { intros kind child Hin.
      apply getChildrenByKind_In in Hin as (children & Hc & Hin & Hkind).
      split; [|exact Hkind].
      eapply Forall_forall; [apply Hvisitable, Hc | exact Hin]. }
    destruct (proj2 (visitChildren_returns (visitMethod this)
                (ContainerReflection.getChildrenByKind def
                   ReflectionKind.Method))) as [methods Hm].
    { split.
      - apply Forall_forall. intros child Hin.
        apply Hmember in Hin as [Hv Hkind].
        unfold memberVisitable in Hv. rewrite Hkind in Hv. apply Hv.
      - intros child Hin Hkept. apply Hmember in Hin as [Hv Hkind].
        unfold memberVisitable in Hv. rewrite Hkind in Hv.
        destruct Hv as [_ Hs]. specialize (Hs Hkept). unfold visitMethod.
        destruct (DeclarationReflection.signatures child); [eauto|congruence]. }
    destruct (proj2 (visitChildren_returns
                (fun child => Ok (visitProperty this child))
                (ContainerReflection.getChildrenByKind def
                   ReflectionKind.Property))) as [properties Hp].
    { split; [|eauto].
      apply Forall_forall. intros child Hin.
      apply Hmember in Hin as [Hv Hkind].
      unfold memberVisitable in Hv. rewrite Hkind in Hv. exact Hv. }
    eexists. apply visitInterface_Ok. exists methods, properties.
    split; [apply visitChildren_Ok, Hm|].
    split; [apply visitChildren_Ok, Hp | reflexivity].
Qed.

Lemma visitClass_returns (def : ContainerReflection.t TypeRef) :
  (exists class, visitClass this def = Ok class) <->
  childrenVisitable this def.
Proof.
  rewrite <- visitInterface_returns. split.
  - intros [class Hclass]. apply visitClass_Ok in Hclass as (entry & H & _).
    eauto.
  - intros [entry Hentry]. eexists. apply visitClass_Ok. eauto.
Qed.

Lemma getReflectionsByKind_In (project : ProjectReflection.t TypeRef) kind def :
  In def (ProjectReflection.getReflectionsByKind project kind) <->
  In def (ProjectReflection.reflections project)
  /\ Reflection.kind (asReflection def) = kind.
Proof.
  unfold ProjectReflection.getReflectionsByKind.
  rewrite filter_In, ReflectionKind_eqb_eq. reflexivity.
Qed.

(** X12: [visitProject] returns entries exactly when every interface and
    class of the registry carries flags and, for those that pass the
    filter, every method and property child carries flags and every method
    child that passes the filter carries a signature list; otherwise it
    throws. *)
Theorem visitProject_returns_iff (project : ProjectReflection.t TypeRef) :
  (exists entries, visitProject this project = Ok entries) <->
  Forall (containerVisitable this) (ProjectReflection.reflections project).
Proof.
  split.
  - intros [entries H].
    apply visitProject_Ok in H as (interfaces & classes & _ & Hi & Hc).
    apply visitChildren_Ok in Hi, Hc.
    pose proof (proj1 (visitChildren_returns _ _) (ex_intro _ _ Hi))
      as [Hiflags Hivisit].
    pose proof (proj1 (visitChildren_returns _ _) (ex_intro _ _ Hc))
      as [Hcflags Hcvisit].
    rewrite Forall_forall in Hiflags, Hcflags.
    apply Forall_forall. intros def Hin. unfold containerVisitable.
    destruct (Reflection.kind (asReflection def)) eqn:Hkind; try exact I.
    + assert (Hmember : In def (ProjectReflection.getReflectionsByKind project
                                  ReflectionKind.Class))
        by (apply getReflectionsByKind_In; auto).
      split; [apply Hcflags, Hmember|]. intros Hkept.
      apply visitClass_returns, Hcvisit; assumption.
    + assert (Hmember : In def (ProjectReflection.getReflectionsByKind project
                                  ReflectionKind.Interface))
        by (apply getReflectionsByKind_In; auto).
      split; [apply Hiflags, Hmember|]. intros Hkept.
      apply visitInterface_returns, Hivisit; assumption.
  - intros Hvisitable. rewrite Forall_forall in Hvisitable.
    assert (Hmember : forall kind def,
               In def (ProjectReflection.getReflectionsByKind project kind) ->
               containerVisitable this def
               /\ Reflection.kind (asReflection def) = kind).
    { intros kind def Hin. apply getReflectionsByKind_In in Hin as [Hin Hkind].
      auto. }
    destruct (proj2 (visitChildren_returns (visitInterface this)
                (ProjectReflection.getReflectionsByKind project
                   ReflectionKind.Interface))) as [interfaces Hi].
    { split.
      - apply Forall_forall. intros def Hin. apply Hmember in Hin as [Hv Hkind].
        unfold containerVisitable in Hv. rewrite Hkind in Hv. apply Hv.
      - intros def Hin Hkept. apply Hmember in Hin as [Hv Hkind].
        unfold containerVisitable in Hv. rewrite Hkind in Hv.
        apply visitInterface_returns, Hv, Hkept. }
    destruct (proj2 (visitChildren_returns (visitClass this)
                (ProjectReflection.getReflectionsByKind project
                   ReflectionKind.Class))) as [classes Hc].
    { split.
      - apply Forall_forall. intros def Hin. apply Hmember in Hin as [Hv Hkind].
        unfold containerVisitable in Hv. rewrite Hkind in Hv. apply Hv.
      - intros def Hin Hkept. apply Hmember in Hin as [Hv Hkind].
        unfold containerVisitable in Hv. rewrite Hkind in Hv.
        apply visitClass_returns, Hv, Hkept. }
    exists (interfaces ++ classes). apply visitProject_Ok.
    exists interfaces, classes.
    split; [reflexivity|]. split; apply visitChildren_Ok; assumption.
Qed.

Lemma visitProject_returns_when_visitable
    (project : ProjectReflection.t TypeRef) :
  Forall (containerVisitable this) (ProjectReflection.reflections project) ->
  exists entries, visitProject this project = Ok entries.
Proof.
  intros Hvisitable. rewrite Forall_forall in Hvisitable.
  assert (Hready : forall (visit : ContainerReflection.t TypeRef ->
                                   result (ITsInterface.t Block)) kind,
             (kind = ReflectionKind.Interface \/ kind = ReflectionKind.Class) ->
             (forall def, childrenVisitable this def ->
                          exists entry, visit def = Ok entry) ->
             exists out,
               visitChildren this
                 (ProjectReflection.getReflectionsByKind project kind) visit
               = Ok out).
  { intros visit kind Hkind Hvisit. apply visitChildren_returns.
    assert (Hdef : forall def,
               In def (ProjectReflection.getReflectionsByKind project kind) ->
               hasFlags (asReflection def)
               /\ (kept this (asReflection def) = true ->
                   childrenVisitable this def)).
    { intros def Hin. apply getReflectionsByKind_In in Hin as [Hin Hdef].
      specialize (Hvisitable def Hin). unfold containerVisitable in Hvisitable.
      rewrite Hdef in Hvisitable. destruct Hkind; subst kind; exact Hvisitable. }
    split.
    - apply Forall_forall. intros def Hin. apply Hdef, Hin.
    - intros def Hin Hkept. apply Hvisit, Hdef; assumption. }
  destruct (Hready (visitInterface this) ReflectionKind.Interface)
    as [interfaces Hi]; [auto | apply visitInterface_returns |].
  destruct (Hready (visitClass this) ReflectionKind.Class)
    as [classes Hc]; [auto | apply visitClass_returns |].
  exists (interfaces ++ classes). apply visitProject_Ok.
  exists interfaces, classes.
  split; [reflexivity|]. split; apply visitChildren_Ok; assumption.
Qed.

(** C2, as the code has it: with a renderer, type resolvers and
    [path.relative] that return, [visitProject] returns entries for every
    project in which each interface and class carries flags and, for those
    that pass the export filter, each method and property child carries
    flags and each method child that passes the filter carries a signature
    list; nothing is asked of reflections the filter never reaches.  A
    missing comment, missing flags, a missing source list, a missing tag
    list and a missing default value each give an absent field, and a
    missing parameter list gives the empty list. *)
Theorem visitProject_returns_when_filtered_are_complete
    (project : ProjectReflection.t TypeRef) :
  (Forall (containerVisitable this) (ProjectReflection.reflections project) ->
   exists entries, visitProject this project = Ok entries)
  /\ (forall ref kind,
        Reflection.comment ref = None ->
        ITsDocBase.documentation (makeDocEntry this ref kind) = None)
  /\ (forall ref kind,
        Reflection.flags ref = None ->
        ITsDocBase.flags (makeDocEntry this ref kind) = None)
  /\ (forall ref kind,
        Reflection.sources ref = None ->
        ITsDocBase.fileName (makeDocEntry this ref kind) = None)
  /\ (forall ref,
        noTags (Reflection.comment ref) -> getIsDeprecated ref = None)
  /\ (forall def : DeclarationReflection.t TypeRef,
        DeclarationReflection.defaultValue def = None ->
        noTags (Reflection.comment (asReflection def)) ->
        ITsProperty.defaultValue (visitProperty this def) = None)
  /\ (forall param : ParameterReflection.t TypeRef,
        ParameterReflection.defaultValue param = None ->
        noTags (Reflection.comment (asReflection param)) ->
        ITsMethodParameter.defaultValue (visitParameter this param) = None)
  /\ (forall sig : SignatureReflection.t TypeRef,
        SignatureReflection.parameters sig = None ->
        ITsMethodSignature.parameters (visitSignature this sig) = []).
Proof.
  split; [apply visitProject_returns_when_visitable|].
  repeat split.
  - intros ref kind Hnone. simpl. rewrite Hnone; reflexivity.
  - intros ref kind Hnone. simpl. unfold getFlags. rewrite Hnone; reflexivity.
  - intros ref kind Hnone. simpl. unfold getFileName. rewrite Hnone; reflexivity.
  - intros ref Hno. unfold getIsDeprecated.
    rewrite (getCommentTag_noTags _ Hno); reflexivity.
  - intros def Hnone Hno. simpl. unfold getDefaultValue. simpl.
    rewrite Hnone, (getCommentTag_noTags _ Hno); reflexivity.
  - intros param Hnone Hno. simpl. unfold getDefaultValue. simpl.
    rewrite Hnone, (getCommentTag_noTags _ Hno); reflexivity.
  - intros sig Hnone. simpl. rewrite Hnone; reflexivity.
Qed.

Lemma ReflectionKind_eqb_neq (a b : ReflectionKind.t) :
  a <> b -> ReflectionKind.eqb a b = false.
Proof.
  intros Hne. destruct (ReflectionKind.eqb a b) eqn:Heq; [|reflexivity].
  apply ReflectionKind_eqb_eq in Heq. contradiction.
Qed.

(** X13: a registered reflection that is neither an interface nor a class
    is ignored: the result is the one of the registry without it, whatever
    its flags, comment and children are. *)
Theorem visitProject_ignores_other_kinds
    (before after : list (ContainerReflection.t TypeRef))
    (def : ContainerReflection.t TypeRef) :
  Reflection.kind (asReflection def) <> ReflectionKind.Interface ->
  Reflection.kind (asReflection def) <> ReflectionKind.Class ->
  visitProject this (projectOf (before ++ def :: after))
  = visitProject this (projectOf (before ++ after)).
Proof.
  intros Hinterface Hclass.
  unfold visitProject, ProjectReflection.getReflectionsByKind, projectOf.
  cbn [ProjectReflection.reflections]. rewrite !filter_app. cbn [filter].
  change (Reflection.kind (ContainerReflection.base def))
    with (Reflection.kind (asReflection def)).
  rewrite (ReflectionKind_eqb_neq Hinterface), (ReflectionKind_eqb_neq Hclass).
  reflexivity.
Qed.

(** X14: an interface or class whose flags do not say [isExported] is left
    out without being traversed when [includeNonExported] is not [true]:
    the result is the one of the registry without it, even when its
    children lack flags or signatures. *)
Theorem visitProject_skips_unexported_untraversed
    (before after : list (ContainerReflection.t TypeRef))
    (def : ContainerReflection.t TypeRef) (flags : ReflectionFlags.t) :
  Reflection.flags (asReflection def) = Some flags ->
  ReflectionFlags.isExported flags <> Some true ->
  includeNonExported (options this) <> Some true ->
  visitProject this (projectOf (before ++ def :: after))
  = visitProject this (projectOf (before ++ after)).
Proof.
  intros Hflags Hexported Hoption.
  assert (Hskip : filterReflection this (asReflection def) = Ok false).
  { unfold filterReflection. rewrite Hflags. f_equal.
    apply orb_false_iff. split; apply not_true_is_false;
      rewrite isTrue_Some_true; assumption. }
  unfold visitProject, ProjectReflection.getReflectionsByKind, projectOf.
  cbn [ProjectReflection.reflections]. rewrite !filter_app. cbn [filter].
  destruct (ReflectionKind.eqb _ ReflectionKind.Interface);
    destruct (ReflectionKind.eqb _ ReflectionKind.Class);
    rewrite ?(visitChildren_skip this _ _ _ def Hskip); reflexivity.
Qed.

End Traversal.

End WithCollaborators.

(** ** The steps against the functions

    Started in a world whose renderer ignores the compiler's state, each
    method over the world returns what the function above returns for the
    visitor and the working directory of that world, and changes nothing
    but the compiler's state. *)

Section Refinement.
Variables TypeRef Block State : Type.
Variable relative : jsstring -> jsstring -> jsstring.
Variable resolveTypeString : option TypeRef -> jsstring.
Variable resolveSignature : SignatureReflection.t TypeRef -> jsstring.
Variable origin : Effects.World Block State.
Hypothesis ignoresState : Effects.rendererIgnoresState origin.

Let this : Visitor Block := Effects.pureVisitor origin.
Let dir : jsstring := Effects.process_cwd origin.

Lemma yields_ret {A} (a : A) : Effects.yields origin (Effects.ret a) (Ok a).
Proof.
  intros world Hworld. exists world. split; [reflexivity | exact Hworld].
Qed.

Lemma yields_throw {A} (e : TypeError) :
  Effects.yields origin (@Effects.throw _ _ A e) (Throw e).
Proof.
  intros world Hworld. exists world. split; [reflexivity | exact Hworld].
Qed.

Lemma yields_andThen {A B} (m : Effects.M Block State A)
    (k : A -> Effects.M Block State B) (r : result A) (k' : A -> result B) :
  Effects.yields origin m r ->
  (forall a, r = Ok a -> Effects.yields origin (k a) (k' a)) ->
  Effects.yields origin (Effects.andThen m k) (bind r k').
Proof.
  intros Hm Hk world Hworld. unfold Effects.andThen.
  destruct (Hm world Hworld) as (world1 & -> & Hworld1).
  destruct r as [a|e]; simpl.
  - apply (Hk a eq_refl), Hworld1.
  - exists world1. split; [reflexivity | exact Hworld1].
Qed.

Lemma yields_andThen_Ok {A B} (m : Effects.M Block State A)
    (k : A -> Effects.M Block State B) (a : A) (r : result B) :
  Effects.yields origin m (Ok a) ->
  Effects.yields origin (k a) r ->
  Effects.yields origin (Effects.andThen m k) r.
Proof.
  intros Hm Hk.
  apply (@yields_andThen _ _ m k (Ok a) (fun _ => r)); [exact Hm|].
  intros a' Ha. injection Ha as <-. exact Hk.
Qed.

Lemma yields_mapM {A B} (f : A -> Effects.M Block State B)
    (g : A -> result B) (l : list A) :
  (forall x, Effects.yields origin (f x) (g x)) ->
  Effects.yields origin (Effects.mapM f l) (mapM g l).
Proof.
  intros Hf. induction l as [|x l IH]; simpl; [apply yields_ret|].
  apply yields_andThen; [apply Hf|]. intros y _.
  apply yields_andThen; [exact IH|]. intros ys _. apply yields_ret.
Qed.

Lemma yields_mapM_Ok {A B} (f : A -> Effects.M Block State B) (g : A -> B)
    (l : list A) :
  (forall x, Effects.yields origin (f x) (Ok (g x))) ->
  Effects.yields origin (Effects.mapM f l) (Ok (map g l)).
Proof.
  intros Hf. induction l as [|x l IH]; simpl; [apply yields_ret|].
  eapply yields_andThen_Ok; [apply Hf|].
  eapply yields_andThen_Ok; [exact IH | apply yields_ret].
Qed.

Lemma yields_filterM {A} (p : A -> Effects.M Block State bool)
    (q : A -> result bool) (l : list A) :
  (forall x, Effects.yields origin (p x) (q x)) ->
  Effects.yields origin (Effects.filterM p l) (filterM q l).
Proof.
  intros Hp. induction l as [|x l IH]; simpl; [apply yields_ret|].
  apply yields_andThen; [apply Hp|]. intros b _.
  apply yields_andThen; [exact IH|]. intros xs _. apply yields_ret.
Qed.

Lemma yields_renderBlock (text : jsstring) :
  Effects.yields origin (Effects.renderBlock text)
    (Ok (renderBlock (compiler this) text)).
Proof.
  intros world (Hoptions & Hcompiler & Hcwd). unfold Effects.renderBlock.
  destruct (Effects.this_compiler world (Effects.compilerState world) text)
    as [block state] eqn:Hcall.
  assert (Hblock : renderBlock (compiler this) text = block).
  { unfold this. simpl.
    rewrite (ignoresState (Effects.compilerState origin)
               (Effects.compilerState world) text), <- Hcompiler, Hcall.
    reflexivity. }
  rewrite Hblock. eexists. split; [reflexivity|].
  repeat split; simpl; assumption.
Qed.

Lemma yields_filterReflection (def : Reflection.t) :
  Effects.yields origin (Effects.filterReflection def)
    (filterReflection this def).
Proof.
  unfold Effects.filterReflection, filterReflection.
  destruct (Reflection.flags def) as [flags|]; [|apply yields_throw].
  destruct (isTrue (ReflectionFlags.isExported flags)); [apply yields_ret|].
  intros world (Hoptions & Hcompiler & Hcwd).
  exists world. split; [|repeat split; assumption].
  unfold Effects.andThen, Effects.readOptions, Effects.ret. simpl.
  rewrite Hoptions. reflexivity.
Qed.

Lemma yields_renderComment (comment : option Comment.t) :
  Effects.yields origin (Effects.renderComment comment)
    (Ok (renderComment this comment)).
Proof.
  unfold Effects.renderComment, renderComment.
  destruct comment as [c|]; [|apply yields_ret].
  eapply yields_andThen_Ok; [apply yields_renderBlock | apply yields_ret].
Qed.

Lemma yields_getFileName (ref : Reflection.t) :
  Effects.yields origin (Effects.getFileName relative ref)
    (Ok (getFileName dir relative ref)).
Proof.
  unfold Effects.getFileName, getFileName.
  destruct (match nth_error _ 0 with Some _ => _ | None => _ end)
    as [[|c name]|]; try apply yields_ret.
  intros world (Hoptions & Hcompiler & Hcwd).
  exists world. split; [|repeat split; assumption].
  unfold Effects.andThen, Effects.cwd, Effects.ret, dir. rewrite Hcwd.
  reflexivity.
Qed.

Lemma yields_makeDocEntry (def : Reflection.t) (kind : Kind.t) :
  Effects.yields origin (Effects.makeDocEntry relative def kind)
    (Ok (makeDocEntry dir relative this def kind)).
Proof.
  unfold Effects.makeDocEntry.
  eapply yields_andThen_Ok; [apply yields_renderComment|].
  eapply yields_andThen_Ok; [apply yields_getFileName | apply yields_ret].
Qed.

Lemma yields_visitParameter (param : ParameterReflection.t TypeRef) :
  Effects.yields origin
    (Effects.visitParameter relative resolveTypeString param)
    (Ok (visitParameter dir relative resolveTypeString this param)).
Proof.
  unfold Effects.visitParameter.
  eapply yields_andThen_Ok; [apply yields_makeDocEntry | apply yields_ret].
Qed.

Lemma yields_visitSignature (sig : SignatureReflection.t TypeRef) :
  Effects.yields origin
    (Effects.visitSignature relative resolveTypeString resolveSignature sig)
    (Ok (visitSignature dir relative resolveTypeString resolveSignature
           this sig)).
Proof.
  unfold Effects.visitSignature.
  eapply yields_andThen_Ok; [apply yields_makeDocEntry|].
  eapply yields_andThen_Ok;
    [apply yields_mapM_Ok, yields_visitParameter | apply yields_ret].
Qed.

Lemma yields_visitMethod (def : DeclarationReflection.t TypeRef) :
  Effects.yields origin
    (Effects.visitMethod relative resolveTypeString resolveSignature def)
    (visitMethod dir relative resolveTypeString resolveSignature this def).
Proof.
  unfold Effects.visitMethod, visitMethod.
  eapply yields_andThen_Ok; [apply yields_makeDocEntry|].
  destruct (DeclarationReflection.signatures def) as [signatures|];
    [|apply yields_throw].
  eapply yields_andThen_Ok;
    [apply yields_mapM_Ok, yields_visitSignature | apply yields_ret].
Qed.

Lemma yields_visitProperty (def : DeclarationReflection.t TypeRef) :
  Effects.yields origin
    (Effects.visitProperty relative resolveTypeString def)
    (Ok (visitProperty dir relative resolveTypeString this def)).
Proof.
  unfold Effects.visitProperty.
  eapply yields_andThen_Ok; [apply yields_makeDocEntry | apply yields_ret].
Qed.

Lemma yields_visitChildren {R T} `{Reflects R} (children : list R)
    (step : R -> Effects.M Block State T) (visitor : R -> result T) :
  (forall def, Effects.yields origin (step def) (visitor def)) ->
  Effects.yields origin (Effects.visitChildren children step)
    (visitChildren this children visitor).
Proof.
  intros Hstep. unfold Effects.visitChildren, visitChildren.
  apply yields_andThen.
  - apply yields_filterM. intros def. apply yields_filterReflection.
  - intros passed _. apply yields_mapM, Hstep.
Qed.

Lemma yields_visitInterface (def : ContainerReflection.t TypeRef) :
  Effects.yields origin
    (Effects.visitInterface relative resolveTypeString resolveSignature def)
    (visitInterface dir relative resolveTypeString resolveSignature this def).
Proof.
  unfold Effects.visitInterface, visitInterface.
  eapply yields_andThen_Ok; [apply yields_makeDocEntry|].
  apply yields_andThen.
  - apply yields_visitChildren, yields_visitMethod.
  - intros methods _. apply yields_andThen.
    + apply yields_visitChildren, yields_visitProperty.
    + intros properties _. apply yields_ret.
Qed.

Lemma yields_visitClass (def : ContainerReflection.t TypeRef) :
  Effects.yields origin
    (Effects.visitClass relative resolveTypeString resolveSignature def)
    (visitClass dir relative resolveTypeString resolveSignature this def).
Proof.
  unfold Effects.visitClass, visitClass.
  apply yields_andThen; [apply yields_visitInterface|].
  intros entry _. apply yields_ret.
Qed.

Lemma yields_visitProject (project : ProjectReflection.t TypeRef) :
  Effects.yields origin
    (Effects.visitProject relative resolveTypeString resolveSignature project)
    (visitProject dir relative resolveTypeString resolveSignature this project).
Proof.
  unfold Effects.visitProject, visitProject.
  apply yields_andThen.
  - apply yields_visitChildren, yields_visitInterface.
  - intros interfaces _. apply yields_andThen.
    + apply yields_visitChildren, yields_visitClass.
    + intros classes _. apply yields_ret.
Qed.

End Refinement.

(** C9: in a world whose renderer returns the same block for the same text
    whatever the compiler's state is, an invocation of [visitProject]
    changes neither the two fields of the visitor nor the working
    directory, and a second invocation on the same project, in the world
    the first one left, returns the same result, entries or exception:
    the one the function above gives for the visitor and the working
    directory of the world. *)
Theorem visitProject_twice_same_result (TypeRef Block State : Type)
    (relative : jsstring -> jsstring -> jsstring)
    (resolveTypeString : option TypeRef -> jsstring)
    (resolveSignature : SignatureReflection.t TypeRef -> jsstring)
    (world : Effects.World Block State)
    (project : ProjectReflection.t TypeRef) :
  Effects.rendererIgnoresState world ->
  let first :=
    Effects.visitProject relative resolveTypeString resolveSignature project
      world in
  let second :=
    Effects.visitProject relative resolveTypeString resolveSignature project
      (snd first) in
  fst second = fst first
  /\ fst first
     = visitProject (Effects.process_cwd world) relative resolveTypeString
         resolveSignature (Effects.pureVisitor world) project
  /\ Effects.this_options (snd first) = Effects.this_options world
  /\ Effects.this_compiler (snd first) = Effects.this_compiler world
  /\ Effects.process_cwd (snd first) = Effects.process_cwd world.
Proof.
  intros Hignores first second.
  pose proof (yields_visitProject relative resolveTypeString resolveSignature
                Hignores project) as Hyields.
  assert (Hworld : Effects.sameButCompilerState world world)
    by (repeat split; reflexivity).
  destruct (Hyields world Hworld) as (world1 & Hfirst & Hworld1).
  destruct (Hyields world1 Hworld1) as (world2 & Hsecond & _).
  subst second first. rewrite Hfirst. simpl. rewrite Hsecond. simpl.
  destruct Hworld1 as (Hoptions & Hcompiler & Hcwd). auto.
Qed.

(** ** The properties on the sample project *)

Module OnSample.
Import Sample.

Local Abbreviation visitParameter :=
  (visitParameter cwd relative resolveTypeString).
Local Abbreviation visitSignature :=
  (visitSignature cwd relative resolveTypeString resolveSignature).
Local Abbreviation visitMethod :=
  (visitMethod cwd relative resolveTypeString resolveSignature).
Local Abbreviation visitProperty :=
  (visitProperty cwd relative resolveTypeString).
Local Abbreviation visitInterface :=
  (visitInterface cwd relative resolveTypeString resolveSignature).
Local Abbreviation visitClass :=
  (visitClass cwd relative resolveTypeString resolveSignature).
Local Abbreviation visitProject :=
  (visitProject cwd relative resolveTypeString resolveSignature).

(** C1 fails as stated: the parameter [x] of [bar] is not exported and
    [includeNonExported] is unset, yet its entry is among the parameters of
    the signature's entry. *)
Lemma unexported_parameter_is_visited :
  ~ (forall (this : Visitor jsstring) (sig : SignatureReflection.t jsstring)
            parameters param,
       SignatureReflection.parameters sig = Some parameters ->
       In param parameters ->
       In (visitParameter this param)
          (ITsMethodSignature.parameters (visitSignature this sig)) ->
       kept this (asReflection param) = true).
Proof.
  intros claim.
  specialize (claim (visitor None) barSignature [x; y] x eq_refl
                (or_introl eq_refl) (or_introl eq_refl)).
  discriminate claim.
Qed.

Lemma visitSignature_keeps_every_parameter_on_bar :
  List.length
    (ITsMethodSignature.parameters (visitSignature (visitor None) barSignature))
  = 2
  /\ nth_error
       (ITsMethodSignature.parameters
          (visitSignature (visitor None) barSignature)) 0
     = Some (visitParameter (visitor None) x).
Proof.
  destruct (visitSignature_keeps_every_parameter cwd relative resolveTypeString
              resolveSignature (visitor None) barSignature eq_refl)
    as [Hlength Hnth].
  split; [exact Hlength | exact (Hnth 0 x eq_refl)].
Defined.

(** C2 fails as stated: a method without a signature list makes
    [visitProject] throw. *)
Lemma visitProject_throws_without_signatures :
  ~ (forall (this : Visitor jsstring) (project : ProjectReflection.t jsstring),
       exists entries, visitProject this project = Ok entries).
Proof.
  intros claim. destruct (claim (visitor None) brokenProject) as [entries H].
  discriminate H.
Qed.

Lemma size_is_filtered_from_Foo :
  visitInterface (visitorWith (compiler (visitor None)) None)
    (containerOf (asReflection Foo) [bar (Some [barSignature]); size false])
  = visitInterface (visitorWith (compiler (visitor None)) None)
      (containerOf (asReflection Foo) [bar (Some [barSignature])]).
Proof.
  exact (proj1
           (nonExported_members_filtered cwd relative resolveTypeString
              resolveSignature (compiler (visitor None)) (asReflection Foo)
              [bar (Some [barSignature])] [] (size false) eq_refl eq_refl)
           None (or_introl eq_refl)).
Defined.

Lemma firstTag_deprecated_on_Foo :
  firstTag (str "deprecated") (Reflection.comment (asReflection Foo))
    (tag "deprecated" "").
Proof.
  exists comment, [], [tag "param" "x: the value"].
  repeat split; constructor.
Defined.

Lemma Foo_is_deprecated :
  getIsDeprecated (asReflection Foo) = Some (JsBool true).
Proof.
  exact (proj1 (proj2
           (getIsDeprecated_cases cwd relative (visitor None)
              (asReflection Foo) Kind.Interface))
           (tag "deprecated" "") firstTag_deprecated_on_Foo eq_refl).
Defined.

Lemma firstTag_default_on_size :
  firstTag (str "default") (Reflection.comment (asReflection (size true)))
    (tag "default" "  42  ").
Proof.
  exists defaultComment, [], []. repeat split; constructor.
Defined.

Lemma defaultValue_of_size_and_y :
  ITsProperty.defaultValue (visitProperty (visitor None) (size true))
  = Some (str "42")
  /\ ITsMethodParameter.defaultValue (visitParameter (visitor None) y)
     = Some (str "7").
Proof.
  destruct (defaultValue_derivation cwd relative resolveTypeString
              (visitor None) (size true) y)
    as [[_ [Htag _]] [Hexplicit _]].
  split.
  - exact (Htag eq_refl _ firstTag_default_on_size).
  - exact (Hexplicit _ eq_refl).
Defined.

Lemma visitClass_on_Impl :
  exists entry class,
    visitInterface (visitor None) Impl = Ok entry
    /\ visitClass (visitor None) Impl = Ok class
    /\ ITsInterface.properties class = ITsInterface.properties entry
    /\ ITsDocBase.kind (ITsInterface.base class) = Kind.Class
    /\ ITsDocBase.kind (ITsInterface.base entry) = Kind.Interface.
Proof.
  eexists.
  destruct (proj1 (visitClass_is_visitInterface_but_kind cwd relative
                     resolveTypeString resolveSignature (visitor None) Impl)
              _ eq_refl)
    as (class & Hclass & _ & _ & _ & _ & _ & Hproperties & Hkind & Hkind').
  exists class. repeat split; assumption.
Defined.

Lemma visitProject_on_sample :
  exists entries interfaces classes,
    visitProject (visitor None) project = Ok entries
    /\ entries = interfaces ++ classes
    /\ Forall
         (fun entry => ITsDocBase.kind (ITsInterface.base entry) = Kind.Interface)
         interfaces
    /\ Forall
         (fun entry => ITsDocBase.kind (ITsInterface.base entry) = Kind.Class)
         classes.
Proof.
  eexists.
  destruct (proj1 (proj1 (visitProject_interfaces_then_classes cwd relative
                            resolveTypeString resolveSignature (visitor None)
                            project) _) eq_refl)
    as (interfaces & classes & Hentries & _ & _ & Hinterfaces & Hclasses).
  exists interfaces, classes. repeat split; assumption.
Defined.

Lemma visitMethod_throws_on_bar_without_signatures :
  visitMethod (visitor None) (bar None) = Throw (CannotReadProperty "map").
Proof.
  exact (proj1 (proj2 (visitSignature_defaults_parameters cwd relative
                         resolveTypeString resolveSignature (visitor None)))
           (bar None) eq_refl).
Defined.

Lemma firstTag_default_on_z :
  firstTag (str "default") (Reflection.comment (asReflection z))
    (tag "default" "   ").
Proof.
  exists blankDefaultComment, [], []. repeat split; constructor.
Defined.

Lemma blank_default_of_z : getDefaultValue z = Some [].
Proof.
  exact (proj2 (getDefaultValue_from_tag_is_trimmed z eq_refl)
           (tag "default" "   ") firstTag_default_on_z eq_refl).
Defined.

Lemma deprecated_only_comment_ends_with_blank_line :
  renderComment (visitor None) (Some deprecatedOnlyComment)
  = Some (str "Old." ++ [LF; LF]).
Proof.
  apply (renderComment_hidden_tags_leave_blank_line (visitor None)
           deprecatedOnlyComment (tags := [tag "deprecated" "use bar"])).
  - reflexivity.
  - constructor; [right; reflexivity | constructor].
Defined.

Lemma fileName_of_Foo :
  getFileName cwd relative (asReflection Foo) = Some (str "src/foo.ts").
Proof.
  apply (proj2 (getFileName_uses_first_source cwd relative (asReflection Foo)
                  (str "src/foo.ts"))).
  do 3 eexists. repeat split; reflexivity.
Defined.

Lemma sample_entries_passed_filter :
  exists entries,
    visitProject (visitor None) project = Ok entries
    /\ Forall
         (fun entry =>
            passedFilter (visitor None)
              (ITsDocBase.flags (ITsInterface.base entry)))
         entries.
Proof.
  eexists. split; [reflexivity|].
  eapply Forall_impl;
    [|apply (visitProject_entries_passed_filter cwd relative resolveTypeString
               resolveSignature (visitor None) project); reflexivity].
  intros entry [Hentry _]; exact Hentry.
Defined.

Lemma sample_entries_kinded :
  exists entries,
    visitProject (visitor None) project = Ok entries
    /\ Forall (fun entry => membersKinded entry) entries.
Proof.
  eexists. split; [reflexivity|].
  eapply Forall_impl;
    [|apply (visitProject_kinds_follow_nesting cwd relative resolveTypeString
               resolveSignature (visitor None) project); reflexivity].
  intros entry [_ Hentry]; exact Hentry.
Defined.

Lemma Foo_entry_is_named_Foo :
  exists entry,
    visitInterface (visitor None) Foo = Ok entry
    /\ ITsDocBase.name (ITsInterface.base entry) = str "Foo".
Proof.
  eexists. split; [reflexivity|].
  apply (visitInterface_mirrors_members cwd relative resolveTypeString
           resolveSignature (visitor None) Foo). reflexivity.
Defined.

Lemma both_sizes_visited_when_option_set :
  exists out,
    visitChildren (visitor (Some true)) [size false; size true]
      (fun def => Ok (visitProperty (visitor (Some true)) def)) = Ok out
    /\ Forall2
         (fun def entry => Ok (visitProperty (visitor (Some true)) def) = Ok entry)
         [size false; size true] out.
Proof.
  eexists. split; [reflexivity|].
  apply (visitChildren_keeps_all_when_option_set (visitor (Some true))
           (fun def => Ok (visitProperty (visitor (Some true)) def))
           [size false; size true]); reflexivity.
Defined.

Lemma Loose_children_throw_even_when_option_set :
  visitChildren (visitor (Some true)) [size true; unflagged]
    (fun def => Ok (visitProperty (visitor (Some true)) def))
  = Throw (CannotReadProperty "isExported").
Proof.
  apply (proj1 (visitChildren_throws_on_missing_flags cwd relative
                  resolveTypeString resolveSignature (visitor (Some true)))).
  right. left. reflexivity.
Defined.

Lemma Hidden_and_Foo_visitable :
  exists entries,
    visitProject (visitor None) (projectOf [Hidden; Foo]) = Ok entries.
Proof.
  apply (proj2 (visitProject_returns_iff cwd relative resolveTypeString
                  resolveSignature (visitor None) (projectOf [Hidden; Foo]))).
  repeat constructor; try discriminate.
  intros _ children H; injection H as <-.
  repeat constructor; discriminate.
Defined.

Lemma Color_is_ignored :
  visitProject (visitor None) (projectOf [Color; Foo])
  = visitProject (visitor None) (projectOf [Foo]).
Proof.
  apply (visitProject_ignores_other_kinds cwd relative resolveTypeString
           resolveSignature (visitor None) [] [Foo] Color); discriminate.
Defined.

Lemma Hidden_is_skipped :
  visitProject (visitor None) (projectOf [Hidden; Foo])
  = visitProject (visitor None) (projectOf [Foo]).
Proof.
  apply (visitProject_skips_unexported_untraversed cwd relative
           resolveTypeString resolveSignature (visitor None) [] [Foo] Hidden
           (flags := exportedFlags false)); [reflexivity | | ]; discriminate.
Defined.

Lemma HiddenLoose_does_not_stop_visitProject :
  exists entries,
    visitProject (visitor None) (projectOf [HiddenLoose; Foo]) = Ok entries.
Proof.
  apply (proj1 (visitProject_returns_when_filtered_are_complete cwd relative
                  resolveTypeString resolveSignature (visitor None)
                  (projectOf [HiddenLoose; Foo]))).
  repeat constructor; try discriminate.
  intros _ children H; injection H as <-.
  repeat constructor; discriminate.
Defined.

(** C4 fails as stated: a comment with short text S and an empty tag list
    renders S followed by a blank line, where the specification's text is
    S. *)
Lemma empty_tag_list_adds_blank_line :
  ~ (forall (this : Visitor jsstring) (comment : Comment.t),
       renderComment this (Some comment)
       = Some (renderBlock (compiler this) (spec_commentText comment))).
Proof.
  intros claim. specialize (claim (visitor None) emptyTagsComment).
  discriminate claim.
Qed.

Lemma sample_comment_renders_the_specification_text :
  commentText comment = spec_commentText comment
  /\ commentText emptyTagsComment = spec_commentText emptyTagsComment ++ [LF; LF].
Proof.
  destruct (renderComment_assembles_text cwd relative (visitor None)
              (asReflection Foo) Kind.Interface)
    as (_ & Hsame & Hempty & _).
  split; [apply Hsame; discriminate | apply Hempty; reflexivity].
Defined.

Lemma counting_renderer_same_result_twice :
  fst (Effects.visitProject relative resolveTypeString resolveSignature project
         (snd (Effects.visitProject relative resolveTypeString resolveSignature
                 project countingWorld)))
  = fst (Effects.visitProject relative resolveTypeString resolveSignature
           project countingWorld).
Proof.
  exact (proj1 (visitProject_twice_same_result relative resolveTypeString
                  resolveSignature (world := countingWorld) project
                  (fun state state' text => eq_refl))).
Defined.

(** With a renderer whose blocks show the compiler's state the second
    invocation returns other entries than the first. *)
Lemma numbering_renderer_differs :
  fst (Effects.visitProject relative resolveTypeString resolveSignature project
         (snd (Effects.visitProject relative resolveTypeString resolveSignature
                 project numberingWorld)))
  <> fst (Effects.visitProject relative resolveTypeString resolveSignature
            project numberingWorld).
Proof.
  vm_compute. discriminate.
Qed.

Lemma sample_entries_from_distinct_reflections :
  exists entries,
    visitProject (visitor None) project = Ok entries
    /\ List.length entries <= 2.
Proof.
  eexists. split; [reflexivity|].
  apply (visitProject_entries_from_distinct_reflections cwd relative
           resolveTypeString resolveSignature (visitor None) project).
  reflexivity.
Defined.

End OnSample.
